(** * Codex of the living: assessment filtering, transmission tracking and
      the encrypted envelope

    A shallow embedding of [assessment_system.py], [tribal_data_tracker.py],
    [cisa_transmission.py] and the dashboard of [cisa_magnitude_viewer.py],
    followed by the properties proved about them.

    Conventions of the embedding:
    - a Python [str] is a [string]; [bytes] is a [list byte];
    - a Python [dict] is a [gmap] when it is used as a map (a finding, the
      severity summary, the summary breakdowns) and a [Record] when it is a
      fixed bundle of fields that is only built and read;
    - an attribute that starts as [None] is an [option];
    - the clock ([datetime.utcnow]), the random source ([os.urandom]) and the
      digests of [hashlib] are inputs: every operation that reads the clock
      takes the reading as an argument, SHA-256 is a member of the class
      [Hashlib];
    - a Python exception is the [None] of an [option], or the [Raise] of a
      [result] where its text matters. *)

From Stdlib Require Import ZArith Ascii String.
From Stdlib.Strings Require Import Byte.
From stdpp Require Import gmap strings list fin_maps pretty.

Open Scope string_scope.

(** ** External capabilities *)

(** [hashlib.sha256(data).hexdigest()]. *)
Class Hashlib := { sha256_hexdigest : list byte → string }.

(** [s.encode()] on a [str] held as a byte string. *)
Definition encode (s : string) : list byte := list_byte_of_string s.

(** [s[:n]] *)
Definition take_str (n : nat) (s : string) : string := substring 0 n s.

(** [str.lower] on the ASCII range: the letters A to Z are mapped to a to z,
    every other byte is kept.  (Outside ASCII, Python lower-cases no character
    into a letter other than "k", which none of the strings compared with a
    lower-cased string in this code contains.) *)
Definition lower_char (c : ascii) : ascii :=
  let n := nat_of_ascii c in
  if (65 <=? n)%nat && (n <=? 90)%nat then ascii_of_nat (n + 32) else c.

Fixpoint lower (s : string) : string :=
  match s with
  | EmptyString => EmptyString
  | String c s' => String (lower_char c) (lower s')
  end.

(** Sum of the counts held by a dict of counters. *)
Definition sum_counts (counts : gmap string nat) : nat :=
  map_fold (λ _ n acc, n + acc) 0 counts.

(** ** assessment_system.py *)

Module assessment_system.

Inductive AssessmentType := SECURITY | INFRASTRUCTURE | COMPLIANCE | CAPACITY.

Definition AssessmentType_value (t : AssessmentType) : string :=
  match t with
  | SECURITY => "security"
  | INFRASTRUCTURE => "infrastructure"
  | COMPLIANCE => "compliance"
  | CAPACITY => "capacity"
  end.

Inductive ProtectionLevel := PUBLIC | SENSITIVE | CONFIDENTIAL | TRIBAL_SOVEREIGN.

Definition ProtectionLevel_value (p : ProtectionLevel) : string :=
  match p with
  | PUBLIC => "public"
  | SENSITIVE => "sensitive"
  | CONFIDENTIAL => "confidential"
  | TRIBAL_SOVEREIGN => "tribal_sovereign"
  end.

(** A finding is the dict built by [add_finding]: string keys, string
    values. *)
Abbreviation Finding := (gmap string string).

Record Assessment := {
  assessment_id : string;
  assessment_type : AssessmentType;
  name : string;
  timestamp : string;
  findings : list Finding;
  metadata : gmap string string
}.

(** [Assessment.__init__]; [now_id] and [now] are the two clock readings. *)
Definition Assessment_init `{Hashlib} (now_id now : string)
    (assessment_type : AssessmentType) (name : string) : Assessment :=
  {| assessment_id := take_str 16 (sha256_hexdigest (encode now_id));
     assessment_type := assessment_type;
     name := name;
     timestamp := now ++ "Z";
     findings := [];
     metadata := {[ "tribe" := "Verdigris Botanica Tribal Nation";
                    "jurisdiction" := "Tribal Sovereign Territory" ]} |}.

(** [Assessment.add_finding] *)
Definition add_finding `{Hashlib} (now : string)
    (finding_type severity description : string)
    (protection_level : ProtectionLevel) (self : Assessment) : Assessment :=
  let finding : Finding :=
    {[ "finding_id" :=
         take_str 12 (sha256_hexdigest
           (encode (assessment_id self ++ pretty (length (findings self)))));
       "type" := finding_type;
       "severity" := severity;
       "description" := description;
       "protection_level" := ProtectionLevel_value protection_level;
       "timestamp" := now ++ "Z" ]} in
  {| assessment_id := assessment_id self;
     assessment_type := assessment_type self;
     name := name self;
     timestamp := timestamp self;
     findings := findings self ++ [finding];
     metadata := metadata self |}.

(** [x in xs] for a list of strings *)
Definition str_in (x : string) (xs : list string) : bool :=
  existsb (String.eqb x) xs.

(** The comprehension of [get_shareable_results]:
    [[f for f in findings if f["protection_level"] in [PUBLIC.value,
    SENSITIVE.value]]].  [f["protection_level"]] raises [KeyError] on a
    dict without that key; the comprehension then yields nothing. *)
Fixpoint shareable_findings (fs : list Finding) : option (list Finding) :=
  match fs with
  | [] => Some []
  | f :: fs' =>
      match f !! "protection_level" with
      | None => None
      | Some level =>
          match shareable_findings fs' with
          | None => None
          | Some rest =>
              if str_in level [ProtectionLevel_value PUBLIC;
                               ProtectionLevel_value SENSITIVE]
              then Some (f :: rest) else Some rest
          end
      end
  end.

(** One turn of the loop of [_calculate_severity_summary]. *)
Definition tally (summary : gmap string nat) (finding : Finding)
    : gmap string nat :=
  let severity := lower (default "info" (finding !! "severity")) in
  match summary !! severity with
  | Some n => <[severity := n + 1]> summary
  | None => summary
  end.

(** [Assessment._calculate_severity_summary] *)
Definition _calculate_severity_summary (fs : list Finding) : gmap string nat :=
  foldl tally
    {[ "critical" := 0; "high" := 0; "medium" := 0; "low" := 0; "info" := 0 ]}
    fs.

(** The dict returned by [get_shareable_results]. *)
Record ShareableResults := {
  res_assessment_id : string;
  res_assessment_type : string;
  res_name : string;
  res_timestamp : string;
  res_findings_count : nat;
  res_findings : list Finding;
  res_severity_summary : gmap string nat;
  res_metadata : gmap string string
}.

(** [Assessment.get_shareable_results] *)
Definition get_shareable_results (self : Assessment) : option ShareableResults :=
  match shareable_findings (findings self) with
  | None => None
  | Some shareable =>
      Some {| res_assessment_id := assessment_id self;
              res_assessment_type := AssessmentType_value (assessment_type self);
              res_name := name self;
              res_timestamp := timestamp self;
              res_findings_count := length shareable;
              res_findings := shareable;
              res_severity_summary := _calculate_severity_summary shareable;
              res_metadata :=
                {[ "source" := "Tribal Sovereign Entity";
                   "classification" := "Shared with Federal Partners" ]} |}
  end.

(** *** Vocabulary of the statements *)

(** The label of a finding is one of the two shareable ones. *)
Definition is_shareable (f : Finding) : Prop :=
  f !! "protection_level" = Some "public" ∨
  f !! "protection_level" = Some "sensitive".

(** The label of a finding is one of the two withheld ones. *)
Definition is_withheld (f : Finding) : Prop :=
  f !! "protection_level" = Some "confidential" ∨
  f !! "protection_level" = Some "tribal_sovereign".

#[global] Instance is_shareable_dec f : Decision (is_shareable f).
Proof. unfold is_shareable. apply _. Defined.

(** Every finding carries a protection level, as every dict built by
    [add_finding] does. *)
Definition labelled (fs : list Finding) : Prop :=
  Forall (λ f : Finding, is_Some (f !! "protection_level")) fs.

(** The five severity buckets. *)
Definition buckets : list string := ["critical"; "high"; "medium"; "low"; "info"].

(** The severity [_calculate_severity_summary] files a finding under. *)
Definition severity_of (f : Finding) : string :=
  lower (default "info" (f !! "severity")).

(** Number of findings filed under severity [b]. *)
Definition count_severity (b : string) (fs : list Finding) : nat :=
  length (filter (λ f, severity_of f = b) fs).

(** *** The full view and the system of assessments *)

(** The dict returned by [get_full_results]. *)
Record FullResults := {
  full_assessment_id : string;
  full_assessment_type : string;
  full_name : string;
  full_timestamp : string;
  full_findings_count : nat;
  full_findings : list Finding;
  full_severity_summary : gmap string nat;
  full_metadata : gmap string string;
  full_protection_note : string
}.

(** [Assessment.get_full_results] *)
Definition get_full_results (self : Assessment) : FullResults :=
  {| full_assessment_id := assessment_id self;
     full_assessment_type := AssessmentType_value (assessment_type self);
     full_name := name self;
     full_timestamp := timestamp self;
     full_findings_count := length (findings self);
     full_findings := findings self;
     full_severity_summary := _calculate_severity_summary (findings self);
     full_metadata := metadata self;
     full_protection_note :=
       "Contains Tribal Sovereign Information - Internal Use Only" |}.

(** [AssessmentSystem]: its one attribute, the list [assessments].  The list
    holds the assessment objects; it is kept here as the list of their
    current states. *)
Abbreviation AssessmentSystem := (list Assessment).

(** [AssessmentSystem.create_assessment]: the new assessment and the system
    after the call. *)
Definition create_assessment `{Hashlib} (now_id now : string)
    (assessment_type : AssessmentType) (name : string) (self : AssessmentSystem)
    : Assessment * AssessmentSystem :=
  let assessment := Assessment_init now_id now assessment_type name in
  (assessment, (self ++ [assessment])%list).

(** The effect, on the system, of a method called on the assessment that
    [create_assessment] has just appended: the list holds the same object. *)
Definition update_last (assessment : Assessment) (self : AssessmentSystem)
    : AssessmentSystem :=
  <[pred (length self) := assessment]> self.

(** [AssessmentSystem.run_security_assessment]; [now_id] and [now] are read
    by the constructor, [now1], [now2], [now3] by the three [add_finding]. *)
Definition run_security_assessment `{Hashlib} (now_id now now1 now2 now3 : string)
    (self : AssessmentSystem) : Assessment * AssessmentSystem :=
  let '(assessment, self) :=
    create_assessment now_id now SECURITY
      "Tribal Infrastructure Security Assessment" self in
  let assessment :=
    add_finding now1 "network_security" "info"
      "Network perimeter security validated" PUBLIC assessment in
  let self := update_last assessment self in
  let assessment :=
    add_finding now2 "encryption" "info"
      "Data encryption standards implemented" PUBLIC assessment in
  let self := update_last assessment self in
  let assessment :=
    add_finding now3 "sovereignty" "info"
      "Tribal sovereignty controls active" TRIBAL_SOVEREIGN assessment in
  let self := update_last assessment self in
  (assessment, self).

(** [AssessmentSystem.run_infrastructure_assessment] *)
Definition run_infrastructure_assessment `{Hashlib} (now_id now now1 now2 : string)
    (self : AssessmentSystem) : Assessment * AssessmentSystem :=
  let '(assessment, self) :=
    create_assessment now_id now INFRASTRUCTURE
      "Tribal Infrastructure Capacity Assessment" self in
  let assessment :=
    add_finding now1 "capacity" "info"
      "Infrastructure capacity validated for federal continuity"
      SENSITIVE assessment in
  let self := update_last assessment self in
  let assessment :=
    add_finding now2 "scalability" "info"
      "Systems demonstrate scalability for growth" SENSITIVE assessment in
  let self := update_last assessment self in
  (assessment, self).

(** [AssessmentSystem.get_assessment]: the first assessment with that id. *)
Fixpoint get_assessment (assessment_id' : string) (self : AssessmentSystem)
    : option Assessment :=
  match self with
  | [] => None
  | assessment :: rest =>
      if String.eqb (assessment_id assessment) assessment_id'
      then Some assessment
      else get_assessment assessment_id' rest
  end.

(** The protection levels that [get_shareable_results] lets through. *)
Definition shareable_level (p : ProtectionLevel) : bool :=
  match p with
  | PUBLIC | SENSITIVE => true
  | CONFIDENTIAL | TRIBAL_SOVEREIGN => false
  end.

(** A finding with its severity, if it has one, put in lower case. *)
Definition lower_severity (f : Finding) : Finding :=
  match f !! "severity" with
  | Some s => <["severity" := lower s]> f
  | None => f
  end.

End assessment_system.

(** ** tribal_data_tracker.py *)

Module tribal_data_tracker.

(** The two classes of string constants. *)
Module DataClassification.
Definition PUBLIC : string := "PUBLIC".
Definition SENSITIVE : string := "SENSITIVE".
Definition CONFIDENTIAL : string := "CONFIDENTIAL".
Definition TRIBAL_SOVEREIGN : string := "TRIBAL_SOVEREIGN".
End DataClassification.

Module TransmissionStatus.
Definition PENDING : string := "PENDING".
Definition APPROVED : string := "APPROVED".
Definition TRANSMITTED : string := "TRANSMITTED".
Definition FAILED : string := "FAILED".
Definition LOGGED : string := "LOGGED".
End TransmissionStatus.

(** An entry of the audit trail: the dict
    [{"timestamp": ..., "action": ..., "details": ...}]. *)
Record AuditEntry := {
  entry_timestamp : string;
  action : string;
  details : string
}.

(** The attributes of a [DataTransmissionRecord] object.  [classification]
    and [status] are plain strings, as in the source. *)
Record DataTransmissionRecord := {
  record_id : string;
  data_type : string;
  destination : string;
  classification : string;
  data_size_bytes : Z;
  timestamp : string;
  status : string;
  data_hash : option string;
  encryption_method : option string;
  tribal_ip_protected : bool;
  audit_trail : list AuditEntry
}.

(** Attribute assignments [self.status = v], [self.data_hash = v],
    [self.encryption_method = v] and the rebinding of [self.audit_trail]. *)
Definition assign_status (v : string) (self : DataTransmissionRecord) :=
  {| record_id := record_id self; data_type := data_type self;
     destination := destination self; classification := classification self;
     data_size_bytes := data_size_bytes self; timestamp := timestamp self;
     status := v;
     data_hash := data_hash self; encryption_method := encryption_method self;
     tribal_ip_protected := tribal_ip_protected self;
     audit_trail := audit_trail self |}.

Definition assign_data_hash (v : option string) (self : DataTransmissionRecord) :=
  {| record_id := record_id self; data_type := data_type self;
     destination := destination self; classification := classification self;
     data_size_bytes := data_size_bytes self; timestamp := timestamp self;
     status := status self;
     data_hash := v;
     encryption_method := encryption_method self;
     tribal_ip_protected := tribal_ip_protected self;
     audit_trail := audit_trail self |}.

Definition assign_encryption_method (v : option string)
    (self : DataTransmissionRecord) :=
  {| record_id := record_id self; data_type := data_type self;
     destination := destination self; classification := classification self;
     data_size_bytes := data_size_bytes self; timestamp := timestamp self;
     status := status self; data_hash := data_hash self;
     encryption_method := v;
     tribal_ip_protected := tribal_ip_protected self;
     audit_trail := audit_trail self |}.

Definition assign_audit_trail (v : list AuditEntry)
    (self : DataTransmissionRecord) :=
  {| record_id := record_id self; data_type := data_type self;
     destination := destination self; classification := classification self;
     data_size_bytes := data_size_bytes self; timestamp := timestamp self;
     status := status self; data_hash := data_hash self;
     encryption_method := encryption_method self;
     tribal_ip_protected := tribal_ip_protected self;
     audit_trail := v |}.

(** [DataTransmissionRecord._generate_record_id]; [now] is the clock reading
    and [random_hex] is [os.urandom(8).hex()]. *)
Definition _generate_record_id `{Hashlib} (now random_hex : string) : string :=
  take_str 24 (sha256_hexdigest (encode (now ++ random_hex))).

(** [DataTransmissionRecord.__init__] *)
Definition DataTransmissionRecord_init `{Hashlib} (now_id random_hex now : string)
    (data_type destination classification : string) (data_size_bytes : Z)
    : DataTransmissionRecord :=
  {| record_id := _generate_record_id now_id random_hex;
     data_type := data_type;
     destination := destination;
     classification := classification;
     data_size_bytes := data_size_bytes;
     timestamp := now ++ "Z";
     status := TransmissionStatus.PENDING;
     data_hash := None;
     encryption_method := None;
     tribal_ip_protected := true;
     audit_trail := [] |}.

(** [DataTransmissionRecord.add_audit_entry] *)
Definition add_audit_entry (now : string) (action details : string)
    (self : DataTransmissionRecord) : DataTransmissionRecord :=
  let entry := {| entry_timestamp := now ++ "Z";
                  action := action;
                  details := details |} in
  assign_audit_trail (audit_trail self ++ [entry]) self.

(** [DataTransmissionRecord.set_data_hash] *)
Definition set_data_hash `{Hashlib} (now : string) (data : list byte)
    (self : DataTransmissionRecord) : DataTransmissionRecord :=
  let h := sha256_hexdigest data in
  let self := assign_data_hash (Some h) self in
  add_audit_entry now "DATA_HASHED"
    ("SHA-256 hash calculated: " ++ take_str 16 h ++ "...") self.

(** [DataTransmissionRecord.set_encryption] *)
Definition set_encryption (now : string) (method : string)
    (self : DataTransmissionRecord) : DataTransmissionRecord :=
  let self := assign_encryption_method (Some method) self in
  add_audit_entry now "ENCRYPTED" ("Data encrypted using " ++ method) self.

(** [DataTransmissionRecord.mark_transmitted] *)
Definition mark_transmitted (now : string) (self : DataTransmissionRecord)
    : DataTransmissionRecord :=
  let self := assign_status TransmissionStatus.TRANSMITTED self in
  add_audit_entry now "TRANSMITTED"
    "Data successfully transmitted to destination" self.

(** [DataTransmissionRecord.mark_failed] *)
Definition mark_failed (now : string) (error : string)
    (self : DataTransmissionRecord) : DataTransmissionRecord :=
  let self := assign_status TransmissionStatus.FAILED self in
  add_audit_entry now "FAILED" ("Transmission failed: " ++ error) self.

(** [DataTransmissionRecord.to_dict]: the dict has one key per attribute, so
    the record itself stands for it. *)
Definition to_dict (self : DataTransmissionRecord) : DataTransmissionRecord :=
  self.

(** Truth value of an optional string: [None] and [""] are false. *)
Definition truthy (v : option string) : bool :=
  match v with
  | None => false
  | Some EmptyString => false
  | Some (String _ _) => true
  end.

(** [TribalDataTracker.validate_transmission]: the returned boolean and the
    record after the call. *)
Definition validate_transmission (now : string) (record : DataTransmissionRecord)
    : bool * DataTransmissionRecord :=
  if String.eqb (classification record) DataClassification.TRIBAL_SOVEREIGN then
    (false, add_audit_entry now "VALIDATION_FAILED"
              "TRIBAL_SOVEREIGN data cannot leave network" record)
  else if negb (truthy (encryption_method record)) then
    (false, add_audit_entry now "VALIDATION_FAILED"
              "No encryption method specified" record)
  else if negb (truthy (data_hash record)) then
    (false, add_audit_entry now "VALIDATION_FAILED"
              "Data hash not calculated" record)
  else
    let record := add_audit_entry now "VALIDATION_PASSED"
                    "All validation checks passed" record in
    let record := assign_status TransmissionStatus.APPROVED record in
    (true, record).

(** *** The tracker, its files and the objects it shares with its callers *)

(** One line of the JSONL log: [{"log_timestamp": ..., "record": ...}]. *)
Record LogLine := {
  log_timestamp : string;
  log_record : DataTransmissionRecord
}.

(** The files written by the tracker, by path: the lines of a file opened
    with ["a"], the record dumped to a file opened with ["w"].  The JSON text
    is not modelled, a file holds the value that is serialised into it. *)
Record Files := {
  appended : gmap string (list LogLine);
  written : gmap string DataTransmissionRecord
}.

Definition append_line (path : string) (line : LogLine) (fs : Files) : Files :=
  {| appended := <[path := (default [] (appended fs !! path) ++ [line])%list]> (appended fs);
     written := written fs |}.

Definition write_file (path : string) (content : DataTransmissionRecord)
    (fs : Files) : Files :=
  {| appended := appended fs;
     written := <[path := content]> (written fs) |}.

(** [Path(dir) / name], without the normalisation of [pathlib]. *)
Definition path_join (dir name : string) : string := dir ++ "/" ++ name.

(** A record object is known by its reference, an index into the heap of
    the world below; [records] holds references. *)
Record TribalDataTracker := {
  log_directory : string;
  records : list nat;
  main_log_file : string
}.

(** [TribalDataTracker.__init__]; the creation of the directory is left
    out. *)
Definition TribalDataTracker_init (log_directory : string) : TribalDataTracker :=
  {| log_directory := log_directory;
     records := [];
     main_log_file := path_join log_directory "tribal_data_transmission_log.jsonl" |}.

(** [TribalDataTracker.log_transmission]: the record and the files after the
    call.  [now_log] and [now_audit] are the two clock readings. *)
Definition log_transmission (self : TribalDataTracker) (now_log now_audit : string)
    (record : DataTransmissionRecord) (fs : Files)
    : DataTransmissionRecord * Files :=
  let log_entry := {| log_timestamp := now_log ++ "Z";
                      log_record := to_dict record |} in
  let fs := append_line (main_log_file self) log_entry fs in
  let record_file :=
    path_join (log_directory self)
      ("transmission_" ++ record_id record ++ ".json") in
  let fs := write_file record_file (to_dict record) fs in
  let record := assign_status TransmissionStatus.LOGGED record in
  let record := add_audit_entry now_audit "LOGGED"
                  ("Record logged to " ++ main_log_file self) record in
  (record, fs).

(** The state of a run: the record objects allocated so far, the tracker and
    the files. *)
Record World := {
  heap : list DataTransmissionRecord;
  tracker : TribalDataTracker;
  files : Files
}.

Definition init_world (log_directory : string) : World :=
  {| heap := [];
     tracker := TribalDataTracker_init log_directory;
     files := {| appended := ∅; written := ∅ |} |}.

(** In-place update of the object behind reference [l]; [None] when [l]
    denotes no object, which no Python program can write. *)
Definition update_object (l : nat)
    (f : DataTransmissionRecord → DataTransmissionRecord) (w : World)
    : option World :=
  match heap w !! l with
  | None => None
  | Some r => Some {| heap := <[l := f r]> (heap w);
                      tracker := tracker w;
                      files := files w |}
  end.

(** [TribalDataTracker.create_transmission_record]: the new object is
    appended to [records] and then receives its first audit entry. *)
Definition create_transmission_record `{Hashlib}
    (now_id random_hex now now_audit : string)
    (data_type destination classification : string) (data_size_bytes : Z)
    (w : World) : option World :=
  let record := DataTransmissionRecord_init now_id random_hex now
                  data_type destination classification data_size_bytes in
  let l := length (heap w) in
  let w := {| heap := heap w ++ [record];
              tracker := {| log_directory := log_directory (tracker w);
                            records := records (tracker w) ++ [l];
                            main_log_file := main_log_file (tracker w) |};
              files := files w |} in
  update_object l
    (add_audit_entry now_audit "CREATED" "Transmission record created") w.

(** The calls a client can make on the records and on the tracker. *)
Inductive Call :=
| New (now_id random_hex now data_type destination classification : string)
      (data_size_bytes : Z)
| Create (now_id random_hex now now_audit data_type destination classification : string)
         (data_size_bytes : Z)
| AddAuditEntry (l : nat) (now action details : string)
| SetDataHash (l : nat) (now : string) (data : list byte)
| SetEncryption (l : nat) (now method : string)
| MarkTransmitted (l : nat) (now : string)
| MarkFailed (l : nat) (now error : string)
| Validate (l : nat) (now : string)
| Log (l : nat) (now_log now_audit : string).

Definition step `{Hashlib} (w : World) (c : Call) : option World :=
  match c with
  | New now_id random_hex now data_type destination classification size =>
      Some {| heap := heap w ++
                [DataTransmissionRecord_init now_id random_hex now
                   data_type destination classification size];
              tracker := tracker w;
              files := files w |}
  | Create now_id random_hex now now_audit data_type destination classification size =>
      create_transmission_record now_id random_hex now now_audit
        data_type destination classification size w
  | AddAuditEntry l now action details =>
      update_object l (add_audit_entry now action details) w
  | SetDataHash l now data => update_object l (set_data_hash now data) w
  | SetEncryption l now method => update_object l (set_encryption now method) w
  | MarkTransmitted l now => update_object l (mark_transmitted now) w
  | MarkFailed l now error => update_object l (mark_failed now error) w
  | Validate l now => update_object l (λ r, (validate_transmission now r).2) w
  | Log l now_log now_audit =>
      match heap w !! l with
      | None => None
      | Some r =>
          let '(r', fs) := log_transmission (tracker w) now_log now_audit r (files w) in
          Some {| heap := <[l := r']> (heap w);
                  tracker := tracker w;
                  files := fs |}
      end
  end.

(** A sequence of calls, from the first to the last. *)
Fixpoint run `{Hashlib} (w : World) (cs : list Call) : option World :=
  match cs with
  | [] => Some w
  | c :: cs' =>
      match step w c with
      | None => None
      | Some w' => run w' cs'
      end
  end.

(** [counts[key] = counts.get(key, 0) + 1] *)
Definition bump (key : string) (counts : gmap string nat) : gmap string nat :=
  <[key := default 0 (counts !! key) + 1]> counts.

(** The dict returned by [get_transmission_summary]. *)
Record Summary := {
  total_transmissions : nat;
  status_breakdown : gmap string nat;
  classification_breakdown : gmap string nat;
  destination_breakdown : gmap string nat;
  log_file : string
}.

(** One turn of the loop of [get_transmission_summary]. *)
Definition count_record
    (counts : gmap string nat * gmap string nat * gmap string nat)
    (record : DataTransmissionRecord) :=
  let '(status_counts, classification_counts, destination_counts) := counts in
  (bump (status record) status_counts,
   bump (classification record) classification_counts,
   bump (destination record) destination_counts).

(** The objects behind [self.records], in order. *)
Definition tracked (w : World) : list DataTransmissionRecord :=
  omap (λ l, heap w !! l) (records (tracker w)).

(** [TribalDataTracker.get_transmission_summary] *)
Definition get_transmission_summary (w : World) : Summary :=
  let '(status_counts, classification_counts, destination_counts) :=
    foldl count_record (∅, ∅, ∅) (tracked w) in
  {| total_transmissions := length (records (tracker w));
     status_breakdown := status_counts;
     classification_breakdown := classification_counts;
     destination_breakdown := destination_counts;
     log_file := main_log_file (tracker w) |}.

(** [TribalDataTracker.get_records_by_destination] *)
Definition get_records_by_destination (destination' : string) (w : World)
    : list DataTransmissionRecord :=
  filter (λ r, destination r = destination') (tracked w).

(** *** Vocabulary of the statements *)

(** An optional attribute is set when it is not [None]. *)
Definition is_set (v : option string) : Prop := v ≠ None.

(** An optional attribute holds a value other than the empty string. *)
Definition is_nonempty (v : option string) : Prop :=
  ∃ s, v = Some s ∧ s ≠ "".

(** Every reference held by the tracker denotes an object. *)
Definition world_ok (w : World) : Prop :=
  Forall (λ l, l < length (heap w)) (records (tracker w)).

(** What one call does to the object it is made on. *)
Inductive record_step `{Hashlib} (r : DataTransmissionRecord)
    : DataTransmissionRecord → Prop :=
| step_add_audit_entry now action details :
    record_step r (add_audit_entry now action details r)
| step_set_data_hash now data :
    record_step r (set_data_hash now data r)
| step_set_encryption now method :
    record_step r (set_encryption now method r)
| step_mark_transmitted now :
    record_step r (mark_transmitted now r)
| step_mark_failed now error :
    record_step r (mark_failed now error r)
| step_validate now :
    record_step r (validate_transmission now r).2
| step_log self now_log now_audit fs :
    record_step r (log_transmission self now_log now_audit r fs).1.

(** The two ways an object comes to be: by its constructor, or by
    [create_transmission_record]. *)
Inductive born `{Hashlib} : DataTransmissionRecord → Prop :=
| born_init now_id random_hex now data_type destination classification size :
    born (DataTransmissionRecord_init now_id random_hex now
            data_type destination classification size)
| born_create now_id random_hex now now_audit data_type destination
    classification size :
    born (add_audit_entry now_audit "CREATED" "Transmission record created"
            (DataTransmissionRecord_init now_id random_hex now
               data_type destination classification size)).

(** The claim of the gate on an approved record. *)
Definition approved_ok (r : DataTransmissionRecord) : Prop :=
  status r = TransmissionStatus.APPROVED →
  classification r ≠ DataClassification.TRIBAL_SOVEREIGN ∧
  is_set (encryption_method r) ∧
  is_set (data_hash r).

(** Every count of a breakdown is positive. *)
Definition positive (counts : gmap string nat) : Prop :=
  map_Forall (λ _ n, 0 < n) counts.

(** The entry written by [add_audit_entry]. *)
Definition entry (now action details : string) : AuditEntry :=
  {| entry_timestamp := now ++ "Z"; action := action; details := details |}.

(** *** Export, and the vocabulary of the statements about runs *)

(** The value [export_audit_log] dumps to [output_file]:
    [{"export_timestamp": ..., "summary": ..., "records": [...]}]. *)
Record AuditExport := {
  export_timestamp : string;
  export_summary : Summary;
  export_records : list DataTransmissionRecord
}.

(** [TribalDataTracker.export_audit_log]: what is written.  The call returns
    [output_file] as it received it and touches neither the tracker nor the
    records. *)
Definition export_audit_log (now : string) (w : World) : AuditExport :=
  {| export_timestamp := now ++ "Z";
     export_summary := get_transmission_summary w;
     export_records := to_dict <$> tracked w |}.

(** The five constants of [TransmissionStatus]. *)
Definition statuses : list string :=
  [TransmissionStatus.PENDING; TransmissionStatus.APPROVED;
   TransmissionStatus.TRANSMITTED; TransmissionStatus.FAILED;
   TransmissionStatus.LOGGED].

(** Two states of an object agree on the attributes given to its
    constructor and on the ones the constructor draws. *)
Definition same_identity (r r' : DataTransmissionRecord) : Prop :=
  record_id r' = record_id r ∧ data_type r' = data_type r ∧
  destination r' = destination r ∧ classification r' = classification r ∧
  data_size_bytes r' = data_size_bytes r ∧ timestamp r' = timestamp r ∧
  tribal_ip_protected r' = tribal_ip_protected r.

(** What was set in [r] is still set in [r']. *)
Definition still_set (r r' : DataTransmissionRecord) : Prop :=
  (is_set (data_hash r) → is_set (data_hash r')) ∧
  (is_set (encryption_method r) → is_set (encryption_method r')).

(** The calls to [create_transmission_record], to [log_transmission]. *)
Definition is_create (c : Call) : bool :=
  match c with Create _ _ _ _ _ _ _ _ => true | _ => false end.

Definition is_log (c : Call) : bool :=
  match c with Log _ _ _ => true | _ => false end.

(** The lines of the main log. *)
Definition main_log (w : World) : list LogLine :=
  default [] (appended (files w) !! main_log_file (tracker w)).

(** Number of records with a given key. *)
Definition count_key (key : DataTransmissionRecord → string) (k : string)
    (rs : list DataTransmissionRecord) : nat :=
  length (filter (λ r, key r = k) rs).

End tribal_data_tracker.

(** ** cisa_transmission.py *)

Module cisa_transmission.

(** The outcome of a call that can raise: the returned value, or the text
    [str(e)] of the exception. *)
Inductive result (A : Type) :=
| Return (a : A)
| Raise (message : string).
Arguments Return {A} a.
Arguments Raise {A} message.

#[global] Instance result_bind : MBind result :=
  λ A B (k : A → result B) (r : result A),
    match r with
    | Return a => k a
    | Raise message => Raise message
    end.

(** [cryptography]'s [AESGCM] with no associated data:
    [AESGCM(key).encrypt(nonce, data, None)] and
    [AESGCM(key).decrypt(nonce, data, None)].  Both can raise (key or nonce of
    a wrong length, oversized data, a tag that does not verify).  The one law
    is the one of an authenticated cipher: what encryption returns decrypts,
    under the same key and nonce, to the data that was encrypted. *)
Class AESGCM := {
  AESGCM_encrypt : list byte → list byte → list byte → result (list byte);
  AESGCM_decrypt : list byte → list byte → list byte → result (list byte);
  AESGCM_decrypt_encrypt key nonce data ciphertext :
    AESGCM_encrypt key nonce data = Return ciphertext →
    AESGCM_decrypt key nonce ciphertext = Return data
}.

(** *** base64 *)

(** Six bits, the most significant first. *)
Definition sextet : Type := bool * bool * bool * bool * bool * bool.

Definition b64_alphabet : string :=
  "ABCDEFGHIJKLMNOPQRSTUVWXYZabcdefghijklmnopqrstuvwxyz0123456789+/".

Definition bit (b : bool) : nat := if b then 1 else 0.

Definition sextet_value (s : sextet) : nat :=
  let '(b5, b4, b3, b2, b1, b0) := s in
  32 * bit b5 + 16 * bit b4 + 8 * bit b3 + 4 * bit b2 + 2 * bit b1 + bit b0.

Definition sextet_of_value (n : nat) : sextet :=
  (Nat.testbit n 5, Nat.testbit n 4, Nat.testbit n 3,
   Nat.testbit n 2, Nat.testbit n 1, Nat.testbit n 0).

(** The character of a sextet. *)
Definition b64_char (s : sextet) : ascii :=
  default "="%char (String.get (sextet_value s) b64_alphabet).

(** The sextet of a character of the alphabet. *)
Definition b64_value (c : ascii) : option sextet :=
  sextet_of_value <$> index 0 (String c EmptyString) b64_alphabet.

(** The eight bits of a byte, the most significant first, and back. *)
Definition bits_of (b : byte) :=
  let '(b0, (b1, (b2, (b3, (b4, (b5, (b6, b7))))))) := Byte.to_bits b in
  (b7, b6, b5, b4, b3, b2, b1, b0).

Definition byte_of (b7 b6 b5 b4 b3 b2 b1 b0 : bool) : byte :=
  Byte.of_bits (b0, (b1, (b2, (b3, (b4, (b5, (b6, b7))))))).

(** [base64.b64encode(data).decode('utf-8')] *)
Fixpoint b64encode (data : list byte) : string :=
  match data with
  | [] => ""
  | [x] =>
      let '(x7, x6, x5, x4, x3, x2, x1, x0) := bits_of x in
      String (b64_char (x7, x6, x5, x4, x3, x2))
        (String (b64_char (x1, x0, false, false, false, false)) "==")
  | [x; y] =>
      let '(x7, x6, x5, x4, x3, x2, x1, x0) := bits_of x in
      let '(y7, y6, y5, y4, y3, y2, y1, y0) := bits_of y in
      String (b64_char (x7, x6, x5, x4, x3, x2))
        (String (b64_char (x1, x0, y7, y6, y5, y4))
           (String (b64_char (y3, y2, y1, y0, false, false)) "="))
  | x :: y :: z :: rest =>
      let '(x7, x6, x5, x4, x3, x2, x1, x0) := bits_of x in
      let '(y7, y6, y5, y4, y3, y2, y1, y0) := bits_of y in
      let '(z7, z6, z5, z4, z3, z2, z1, z0) := bits_of z in
      String (b64_char (x7, x6, x5, x4, x3, x2))
        (String (b64_char (x1, x0, y7, y6, y5, y4))
           (String (b64_char (y3, y2, y1, y0, z7, z6))
              (String (b64_char (z5, z4, z3, z2, z1, z0))
                 (b64encode rest))))
  end.

(** [base64.b64decode(s)] on text made of groups of four characters of the
    alphabet, the last group padded with ["="].  On any other text the model
    raises; the library is more lenient there (it skips the characters that
    are not of the alphabet), and no text produced by [b64encode] is
    concerned. *)
Fixpoint b64decode (s : string) : result (list byte) :=
  match s with
  | EmptyString => Return []
  | String c1 (String c2 (String c3 (String c4 rest))) =>
      match b64_value c1, b64_value c2, b64_value c3, b64_value c4 with
      | Some (x7, x6, x5, x4, x3, x2), Some (x1, x0, y7, y6, y5, y4),
        Some (y3, y2, y1, y0, z7, z6), Some (z5, z4, z3, z2, z1, z0) =>
          tail ← b64decode rest;
          Return (byte_of x7 x6 x5 x4 x3 x2 x1 x0
                  :: byte_of y7 y6 y5 y4 y3 y2 y1 y0
                  :: byte_of z7 z6 z5 z4 z3 z2 z1 z0 :: tail)
      | Some (x7, x6, x5, x4, x3, x2), Some (x1, x0, y7, y6, y5, y4),
        Some (y3, y2, y1, y0, _, _), None =>
          if Ascii.eqb c4 "=" && String.eqb rest ""
          then Return [byte_of x7 x6 x5 x4 x3 x2 x1 x0;
                       byte_of y7 y6 y5 y4 y3 y2 y1 y0]
          else Raise "Incorrect padding"
      | Some (x7, x6, x5, x4, x3, x2), Some (x1, x0, _, _, _, _), None, None =>
          if Ascii.eqb c3 "=" && Ascii.eqb c4 "=" && String.eqb rest ""
          then Return [byte_of x7 x6 x5 x4 x3 x2 x1 x0]
          else Raise "Incorrect padding"
      | _, _, _, _ => Raise "Incorrect padding"
      end
  | _ => Raise "Incorrect padding"
  end.

(** *** SecureTransmitter *)

(** The attributes read by [encrypt_data] and [decrypt_data]; the
    [transmission_log] of [simulate_transmission] is left out. *)
Record SecureTransmitter := {
  cisa_endpoint : string;
  encryption_key : list byte
}.

(** [SecureTransmitter.__init__]: [encryption_key or self._generate_key()];
    [generated] is what [AESGCM.generate_key(bit_length=256)] draws. *)
Definition SecureTransmitter_init (cisa_endpoint : string)
    (encryption_key : option (list byte)) (generated : list byte)
    : SecureTransmitter :=
  {| cisa_endpoint := cisa_endpoint;
     encryption_key :=
       match encryption_key with
       | Some (b :: key) => b :: key
       | Some [] | None => generated
       end |}.

(** [SecureTransmitter.encrypt_data]; [nonce] is [os.urandom(12)] and [now]
    the clock reading.  An exception raised inside [try] comes out as a
    [CISATransmissionError] with the prefixed message. *)
Definition encrypt_data `{AESGCM} (self : SecureTransmitter)
    (nonce : list byte) (now : string) (data : list byte)
    : result (gmap string string) :=
  match AESGCM_encrypt (encryption_key self) nonce data with
  | Return ciphertext =>
      Return ({[ "ciphertext" := b64encode ciphertext;
                 "nonce" := b64encode nonce;
                 "algorithm" := "AES-256-GCM";
                 "timestamp" := now ++ "Z" ]} : gmap string string)
  | Raise e => Raise ("Encryption failed: " ++ e)
  end.

(** [d[key]] inside a [try]: a missing key raises [KeyError], whose text is
    the quoted key. *)
Definition getitem (d : gmap string string) (key : string) : result string :=
  match d !! key with
  | Some v => Return v
  | None => Raise ("'" ++ key ++ "'")
  end.

(** [SecureTransmitter.decrypt_data] *)
Definition decrypt_data `{AESGCM} (self : SecureTransmitter)
    (encrypted_payload : gmap string string) : result (list byte) :=
  let body :=
    c ← getitem encrypted_payload "ciphertext";
    ciphertext ← b64decode c;
    n ← getitem encrypted_payload "nonce";
    nonce ← b64decode n;
    AESGCM_decrypt (encryption_key self) nonce ciphertext in
  match body with
  | Return plaintext => Return plaintext
  | Raise e => Raise ("Decryption failed: " ++ e)
  end.

(** [SecureTransmitter.verify_encryption] on the payload of a package. *)
Definition verify_encryption (encrypted_payload : gmap string string) : bool :=
  forallb (λ field, bool_decide (is_Some (encrypted_payload !! field)))
    ["ciphertext"; "nonce"; "algorithm"; "timestamp"].

(** *** Packages and the transmission log *)

(** A value of a dict of metadata or of assessment data: a string, an
    integer, or anything else, held as its JSON text. *)
Inductive json_value :=
| JStr (s : string)
| JInt (n : Z)
| JOther (text : string).

(** The assessment data handed to the transmitter: any dict, of which the
    code takes the JSON text ([json.dumps]) and reads keys ([dict.get]). *)
Class AssessmentData (A : Type) := {
  json_dumps : A → string;
  dict_get : A → string → option json_value
}.

(** The dict built by [prepare_transmission_package]. *)
Record Package := {
  transmission_id : string;
  package_destination : string;
  package_source : string;
  package_timestamp : string;
  package_data_hash : string;
  package_data_size_bytes : nat;
  encrypted_payload : gmap string string;
  package_metadata_in : gmap string json_value;
  tribal_sovereignty_protected : bool;
  encryption_standard : string
}.

(** [SecureTransmitter.prepare_transmission_package]; [nonce] and [now_enc]
    are what [encrypt_data] draws and reads, [now_id] and [now] the two later
    clock readings.  An error of [encrypt_data] goes through unchanged. *)
Definition prepare_transmission_package `{Hashlib} `{AESGCM} {A} `{AssessmentData A}
    (self : SecureTransmitter) (nonce : list byte) (now_enc now_id now : string)
    (assessment_data : A) (metadata : option (gmap string json_value))
    : result Package :=
  let json_data := encode (json_dumps assessment_data) in
  let data_hash := sha256_hexdigest json_data in
  encrypted ← encrypt_data self nonce now_enc json_data;
  Return
    {| transmission_id :=
         take_str 32 (sha256_hexdigest (encode (now_id ++ data_hash)));
       package_destination := "CISA";
       package_source := "Verdigris Botanica Tribal Nation";
       package_timestamp := now ++ "Z";
       package_data_hash := data_hash;
       package_data_size_bytes := length json_data;
       encrypted_payload := encrypted;
       package_metadata_in := default ∅ metadata;
       tribal_sovereignty_protected := true;
       encryption_standard := "FIPS 140-2 Compliant AES-256-GCM" |}.

(** The ["response"] of a transmission record. *)
Record Response := {
  cisa_receipt_id : string;
  received_timestamp : string;
  response_status : string;
  message : string
}.

(** The ["package_metadata"] that [transmit_to_cisa] adds to a record. *)
Record PackageMetadata := {
  metadata_source : string;
  metadata_data_size_bytes : nat;
  metadata_encryption_standard : string
}.

(** The dict built by [simulate_transmission]; the key ["package_metadata"]
    is absent until [transmit_to_cisa] adds it. *)
Record TransmissionRecord := {
  record_transmission_id : string;
  endpoint : string;
  record_timestamp : string;
  record_status : string;
  record_data_hash : string;
  encryption_verified : bool;
  record_tribal_ip_protected : bool;
  response : Response;
  package_metadata : option PackageMetadata
}.

(** [SecureTransmitter.simulate_transmission]: the record and the
    transmission log after the call; [now] and [now_received] are the two
    clock readings. *)
Definition simulate_transmission `{Hashlib} (self : SecureTransmitter)
    (now now_received : string) (package : Package)
    (transmission_log : list TransmissionRecord)
    : TransmissionRecord * list TransmissionRecord :=
  let transmission_record :=
    {| record_transmission_id := transmission_id package;
       endpoint := cisa_endpoint self;
       record_timestamp := now ++ "Z";
       record_status := "SIMULATED_SUCCESS";
       record_data_hash := package_data_hash package;
       encryption_verified := true;
       record_tribal_ip_protected := tribal_sovereignty_protected package;
       response :=
         {| cisa_receipt_id :=
              take_str 16 (sha256_hexdigest (encode (transmission_id package)));
            received_timestamp := now_received ++ "Z";
            response_status := "RECEIVED";
            message := "Assessment data received and acknowledged" |};
       package_metadata := None |} in
  (transmission_record, (transmission_log ++ [transmission_record])%list).

(** [transmission_record["package_metadata"] = ...] *)
Definition add_package_metadata (package : Package)
    (transmission_record : TransmissionRecord) : TransmissionRecord :=
  {| record_transmission_id := record_transmission_id transmission_record;
     endpoint := endpoint transmission_record;
     record_timestamp := record_timestamp transmission_record;
     record_status := record_status transmission_record;
     record_data_hash := record_data_hash transmission_record;
     encryption_verified := encryption_verified transmission_record;
     record_tribal_ip_protected := record_tribal_ip_protected transmission_record;
     response := response transmission_record;
     package_metadata :=
       Some {| metadata_source := package_source package;
               metadata_data_size_bytes := package_data_size_bytes package;
               metadata_encryption_standard := encryption_standard package |} |}.

(** [SecureTransmitter.transmit_to_cisa]: the returned record and the
    transmission log after the call.  The record that receives
    ["package_metadata"] is the object that [simulate_transmission] has put
    at the end of the log, so that the log shows the addition; an error of
    the preparation leaves the log as it was. *)
Definition transmit_to_cisa `{Hashlib} `{AESGCM} {A} `{AssessmentData A}
    (self : SecureTransmitter) (nonce : list byte)
    (now_enc now_id now now_sent now_received : string)
    (assessment_data : A) (metadata : option (gmap string json_value))
    (transmission_log : list TransmissionRecord)
    : result (TransmissionRecord * list TransmissionRecord) :=
  package ← prepare_transmission_package self nonce now_enc now_id now
               assessment_data metadata;
  let '(transmission_record, transmission_log) :=
    simulate_transmission self now_sent now_received package transmission_log in
  let transmission_record := add_package_metadata package transmission_record in
  Return (transmission_record,
          <[pred (length transmission_log) := transmission_record]> transmission_log).

(** [CISAIntegration.send_assessment_to_cisa] on the transmitter it holds. *)
Definition send_assessment_to_cisa `{Hashlib} `{AESGCM} {A} `{AssessmentData A}
    (transmitter : SecureTransmitter) (nonce : list byte)
    (now_enc now_id now now_sent now_received : string)
    (assessment_results : A)
    (tracker_record : tribal_data_tracker.DataTransmissionRecord)
    (transmission_log : list TransmissionRecord)
    : result (TransmissionRecord * list TransmissionRecord) :=
  let metadata : gmap string json_value :=
    {[ "tracking_record_id" :=
         JStr (tribal_data_tracker.record_id tracker_record);
       "tribal_classification" :=
         JStr (tribal_data_tracker.classification tracker_record);
       "assessment_type" :=
         default (JStr "general") (dict_get assessment_results "assessment_type");
       "magnitude" :=
         default (JInt 0) (dict_get assessment_results "findings_count") ]} in
  transmit_to_cisa transmitter nonce now_enc now_id now now_sent now_received
    assessment_results (Some metadata) transmission_log.

End cisa_transmission.

(** ** cisa_magnitude_viewer.py *)

Module cisa_magnitude_viewer.
Import tribal_data_tracker.

(** The exceptions that end a run of the dashboard, with their text. *)
Inductive exception :=
| TypeError (text : string)
| JSONDecodeError (text : string).

(** What a run leaves: the lines printed, and the exception that ended it, if
    one did. *)
Record Outcome := {
  printed : list string;
  raised : option exception
}.

(** [c * 80] *)
Definition rule (c : ascii) : string := string_of_list_ascii (replicate 80 c).

(** [str(v)] for an optional string, as an f-string shows it. *)
Definition show (v : option string) : string := default "None" v.

(** The digits of a number, last digit first, with a comma after each group
    of three that is followed by another digit. *)
Fixpoint commas (digits : list ascii) : list ascii :=
  match digits with
  | a :: b :: c :: ((_ :: _) as more) => a :: b :: c :: ","%char :: commas more
  | _ => digits
  end.

(** [f"{n:,}"] *)
Definition format_thousands (n : Z) : string :=
  (if (n <? 0)%Z then "-" else "")
  ++ string_of_list_ascii
       (reverse (commas (reverse (list_ascii_of_string (pretty (Z.abs_N n)))))).

(** The prints of one turn of the loop of [display_magnitude_dashboard].
    Every key read by [record.get] is in the dict that [log_transmission]
    wrote, so that no default applies; an encryption method or a hash that is
    [None] comes back as [None], and [None[:32]] raises. *)
Definition display_transmission (record : DataTransmissionRecord) : Outcome :=
  let lines :=
    [ "🔐 Transmission ID: " ++ record_id record;
      "   Type: " ++ data_type record;
      "   Classification: " ++ classification record;
      "   Encryption: " ++ show (encryption_method record);
      "   Timestamp: " ++ timestamp record;
      "   Status: " ++ status record ] in
  match data_hash record with
  | None =>
      {| printed := lines;
         raised := Some (TypeError "'NoneType' object is not subscriptable") |}
  | Some h =>
      {| printed :=
           (lines ++ [("   Data Hash: " ++ take_str 32 h ++ "...")%string; ""])%list;
         raised := None |}
  end.

(** The loop over the transmissions: the lines printed, the sum
    [data_transferred] so far and the exception, if one ended the loop. *)
Fixpoint display_transmissions (transmissions : list LogLine)
    (data_transferred : Z) : list string * Z * option exception :=
  match transmissions with
  | [] => ([], data_transferred, None)
  | transmission :: rest =>
      let record := log_record transmission in
      let data_transferred := (data_transferred + data_size_bytes record)%Z in
      let shown := display_transmission record in
      match raised shown with
      | Some e => (printed shown, data_transferred, Some e)
      | None =>
          let '(lines, total, e) := display_transmissions rest data_transferred in
          ((printed shown ++ lines)%list, total, e)
      end
  end.

Definition header : list string :=
  [ rule "=";
    "CISA TRIBAL ASSESSMENT DASHBOARD";
    "Cybersecurity and Infrastructure Security Agency";
    rule "=";
    "" ].

Definition footer (data_transferred : Z) : list string :=
  [ rule "-";
    "📈 CAPACITY INDICATORS";
    rule "-";
    "✓ Tribal entity demonstrates secure data transmission capability";
    "✓ Encryption standards: AES-256-GCM (FIPS 140-2 Compliant)";
    "✓ Data integrity verification: SHA-256 hashing";
    "✓ Comprehensive audit logging: ENABLED";
    "✓ Tribal sovereignty protection: ACTIVE";
    "✓ Total data transferred: " ++ format_thousands data_transferred ++ " bytes";
    "";
    rule "-";
    "🎯 FEDERAL CONTINUITY ASSESSMENT";
    rule "-";
    "✓ Infrastructure Scalability: DEMONSTRATED";
    "✓ Security Controls: VALIDATED";
    "✓ Compliance Capability: CONFIRMED";
    "✓ Federal Partnership Readiness: VERIFIED";
    "";
    rule "=";
    "Assessment Complete - Tribal Capacity Validated";
    "Systems speak for themselves through demonstrated capability";
    rule "=" ].

Definition not_found : string :=
  "No transmission data found. Run the assessment first.".

Definition nothing_recorded : string := "No transmissions recorded yet.".

(** The text of the error of [json.loads] on the line ["{"]. *)
Definition not_a_property : string :=
  "Expecting property name enclosed in double quotes: line 2 column 1 (char 2)".

Definition summary (total_transmissions : nat) : list string :=
  [ "📊 MAGNITUDE SUMMARY";
    rule "-";
    "Source: Verdigris Botanica Tribal Nation";
    "Total Data Transmissions: " ++ pretty total_transmissions;
    "" ].

#[local] Open Scope list_scope.

(** [display_magnitude_dashboard] on the files of the tracker.  A file
    written by appending holds JSON lines, which are read back as the values
    that were dumped; a file written by [json.dump(..., indent=2)] has ["{"]
    as its first line, on which [json.loads] raises. *)
Definition display_magnitude_dashboard (fs : Files) (transmission_log_file : string)
    : Outcome :=
  match appended fs !! transmission_log_file with
  | None =>
      match written fs !! transmission_log_file with
      | None =>
          {| printed := header ++ [not_found]; raised := None |}
      | Some _ =>
          {| printed := header; raised := Some (JSONDecodeError not_a_property) |}
      end
  | Some [] =>
      {| printed := header ++ [nothing_recorded]; raised := None |}
  | Some transmissions =>
      let '(lines, data_transferred, e) := display_transmissions transmissions 0 in
      match e with
      | Some e =>
          {| printed := header ++ summary (length transmissions) ++ lines;
             raised := Some e |}
      | None =>
          {| printed := header ++ summary (length transmissions) ++ lines
                          ++ footer data_transferred;
             raised := None |}
      end
  end.

(** The sum of the sizes of the records of a log. *)
Definition total_size (transmissions : list LogLine) : Z :=
  foldr (λ t acc, (data_size_bytes (log_record t) + acc)%Z) 0%Z transmissions.

End cisa_magnitude_viewer.

(** ** Concrete inputs *)

Module samples.

(** An assessment with one finding of each protection level. *)
Definition mixed_assessment : assessment_system.Assessment :=
  {| assessment_system.assessment_id := "5f70bf18a0860070";
     assessment_system.assessment_type := assessment_system.SECURITY;
     assessment_system.name := "Test Security Assessment";
     assessment_system.timestamp := "2024-01-01T00:00:00Z";
     assessment_system.findings :=
       [ {[ "finding_id" := "000000000001"; "type" := "network_security";
            "severity" := "high"; "description" := "Open port";
            "protection_level" := "public";
            "timestamp" := "2024-01-01T00:00:01Z" ]};
         {[ "finding_id" := "000000000002"; "type" := "sovereignty";
            "severity" := "low"; "description" := "Tribal sovereign information";
            "protection_level" := "tribal_sovereign";
            "timestamp" := "2024-01-01T00:00:02Z" ]};
         {[ "finding_id" := "000000000003"; "type" := "capacity";
            "severity" := "Medium"; "description" := "Capacity validated";
            "protection_level" := "sensitive";
            "timestamp" := "2024-01-01T00:00:03Z" ]};
         {[ "finding_id" := "000000000004"; "type" := "contracts";
            "severity" := "critical"; "description" := "Confidential information";
            "protection_level" := "confidential";
            "timestamp" := "2024-01-01T00:00:04Z" ]} ];
     assessment_system.metadata := ∅ |}.

(** An assessment whose only finding is public and has a severity outside
    the five buckets. *)
Definition urgent_assessment : assessment_system.Assessment :=
  {| assessment_system.assessment_id := "5f70bf18a0860070";
     assessment_system.assessment_type := assessment_system.SECURITY;
     assessment_system.name := "Test Security Assessment";
     assessment_system.timestamp := "2024-01-01T00:00:00Z";
     assessment_system.findings :=
       [ {[ "finding_id" := "000000000001"; "type" := "network_security";
            "severity" := "urgent"; "description" := "Open port";
            "protection_level" := "public";
            "timestamp" := "2024-01-01T00:00:01Z" ]} ];
     assessment_system.metadata := ∅ |}.

(** A record as it stands after [create_transmission_record],
    [set_data_hash(b"test data")] and [set_encryption("")]: the encryption
    method is set, to the empty string. *)
Definition empty_method_record : tribal_data_tracker.DataTransmissionRecord :=
  {| tribal_data_tracker.record_id := "d0d96a3260a59bd95e9ccf68";
     tribal_data_tracker.data_type := "assessment_results";
     tribal_data_tracker.destination := "CISA";
     tribal_data_tracker.classification := "SENSITIVE";
     tribal_data_tracker.data_size_bytes := 1024;
     tribal_data_tracker.timestamp := "2024-01-01T00:00:00Z";
     tribal_data_tracker.status := "PENDING";
     tribal_data_tracker.data_hash :=
       Some "916f0027a575074ce72a331777c3478d6513f786a591bd892da1a577bf2335f9";
     tribal_data_tracker.encryption_method := Some "";
     tribal_data_tracker.tribal_ip_protected := true;
     tribal_data_tracker.audit_trail :=
       [ {| tribal_data_tracker.entry_timestamp := "2024-01-01T00:00:00Z";
            tribal_data_tracker.action := "CREATED";
            tribal_data_tracker.details := "Transmission record created" |};
         {| tribal_data_tracker.entry_timestamp := "2024-01-01T00:00:01Z";
            tribal_data_tracker.action := "DATA_HASHED";
            tribal_data_tracker.details :=
              "SHA-256 hash calculated: 916f0027a575074c..." |};
         {| tribal_data_tracker.entry_timestamp := "2024-01-01T00:00:02Z";
            tribal_data_tracker.action := "ENCRYPTED";
            tribal_data_tracker.details := "Data encrypted using " |} ] |}.

(** A sovereign record on which both setters were called. *)
Definition sovereign_record : tribal_data_tracker.DataTransmissionRecord :=
  {| tribal_data_tracker.record_id := "d0d96a3260a59bd95e9ccf68";
     tribal_data_tracker.data_type := "sovereign_data";
     tribal_data_tracker.destination := "CISA";
     tribal_data_tracker.classification := "TRIBAL_SOVEREIGN";
     tribal_data_tracker.data_size_bytes := 512;
     tribal_data_tracker.timestamp := "2024-01-01T00:00:00Z";
     tribal_data_tracker.status := "PENDING";
     tribal_data_tracker.data_hash :=
       Some "916f0027a575074ce72a331777c3478d6513f786a591bd892da1a577bf2335f9";
     tribal_data_tracker.encryption_method := Some "AES-256-GCM";
     tribal_data_tracker.tribal_ip_protected := true;
     tribal_data_tracker.audit_trail := [] |}.

(** A stand-in for [hashlib] in the concrete runs below: the digest of the
    empty byte string, whatever the input. *)
Definition fixed_digest : Hashlib :=
  {| sha256_hexdigest := λ _,
       "e3b0c44298fc1c149afbf4c8996fb92427ae41e4649b934ca495991b7852b855" |}.

(** The run of [test_data_tracker]: a sensitive record that is hashed,
    encrypted and validated, a sovereign record that is hashed, encrypted and
    refused, then the first record is marked and logged. *)
Definition tracker_test_calls : list tribal_data_tracker.Call :=
  [ tribal_data_tracker.Create "2024-01-01T00:00:00" "a1b2c3d4e5f60708"
      "2024-01-01T00:00:00" "2024-01-01T00:00:00"
      "test_assessment" "CISA" "SENSITIVE" 1024;
    tribal_data_tracker.SetDataHash 0 "2024-01-01T00:00:01"
      (encode "test data for hashing");
    tribal_data_tracker.SetEncryption 0 "2024-01-01T00:00:02" "AES-256-GCM";
    tribal_data_tracker.Validate 0 "2024-01-01T00:00:03";
    tribal_data_tracker.Create "2024-01-01T00:00:04" "0807f6e5d4c3b2a1"
      "2024-01-01T00:00:04" "2024-01-01T00:00:04"
      "sovereign_data" "CISA" "TRIBAL_SOVEREIGN" 512;
    tribal_data_tracker.SetDataHash 1 "2024-01-01T00:00:05" (encode "test");
    tribal_data_tracker.SetEncryption 1 "2024-01-01T00:00:06" "AES-256-GCM";
    tribal_data_tracker.Validate 1 "2024-01-01T00:00:07";
    tribal_data_tracker.MarkTransmitted 0 "2024-01-01T00:00:08";
    tribal_data_tracker.Log 0 "2024-01-01T00:00:09" "2024-01-01T00:00:10" ].

(** A record as [create_transmission_record] leaves it: no hash, no
    encryption method. *)
Definition pending_record : tribal_data_tracker.DataTransmissionRecord :=
  {| tribal_data_tracker.record_id := "d0d96a3260a59bd95e9ccf68";
     tribal_data_tracker.data_type := "assessment_results";
     tribal_data_tracker.destination := "CISA";
     tribal_data_tracker.classification := "SENSITIVE";
     tribal_data_tracker.data_size_bytes := 2048;
     tribal_data_tracker.timestamp := "2024-01-01T00:00:00Z";
     tribal_data_tracker.status := "PENDING";
     tribal_data_tracker.data_hash := None;
     tribal_data_tracker.encryption_method := None;
     tribal_data_tracker.tribal_ip_protected := true;
     tribal_data_tracker.audit_trail :=
       [ {| tribal_data_tracker.entry_timestamp := "2024-01-01T00:00:00Z";
            tribal_data_tracker.action := "CREATED";
            tribal_data_tracker.details := "Transmission record created" |} ] |}.

(** A world in which the tracker holds that record alone. *)
Definition pending_world : tribal_data_tracker.World :=
  {| tribal_data_tracker.heap := [pending_record];
     tribal_data_tracker.tracker :=
       {| tribal_data_tracker.log_directory := "./logs";
          tribal_data_tracker.records := [0];
          tribal_data_tracker.main_log_file :=
            "./logs/tribal_data_transmission_log.jsonl" |};
     tribal_data_tracker.files :=
       {| tribal_data_tracker.appended := ∅;
          tribal_data_tracker.written := ∅ |} |}.

(** A main log of two lines, the records of which have a hash. *)
Definition hashed_log : list tribal_data_tracker.LogLine :=
  [ {| tribal_data_tracker.log_timestamp := "2024-01-01T00:00:09Z";
       tribal_data_tracker.log_record := empty_method_record |};
    {| tribal_data_tracker.log_timestamp := "2024-01-01T00:00:10Z";
       tribal_data_tracker.log_record := sovereign_record |} ].

Definition hashed_files : tribal_data_tracker.Files :=
  {| tribal_data_tracker.appended :=
       {[ "./logs/tribal_data_transmission_log.jsonl" := hashed_log ]};
     tribal_data_tracker.written := ∅ |}.

(** A world in which the tracker holds the two records above. *)
Definition two_record_world : tribal_data_tracker.World :=
  {| tribal_data_tracker.heap := [empty_method_record; sovereign_record];
     tribal_data_tracker.tracker :=
       {| tribal_data_tracker.log_directory := "./logs";
          tribal_data_tracker.records := [0; 1];
          tribal_data_tracker.main_log_file :=
            "./logs/tribal_data_transmission_log.jsonl" |};
     tribal_data_tracker.files :=
       {| tribal_data_tracker.appended := ∅;
          tribal_data_tracker.written := ∅ |} |}.

(** A stand-in for the cipher in the concrete runs below: it returns the
    data as they are. *)
Definition clear_text : cisa_transmission.AESGCM :=
  {| cisa_transmission.AESGCM_encrypt := λ _ _ data, cisa_transmission.Return data;
     cisa_transmission.AESGCM_decrypt := λ _ _ data, cisa_transmission.Return data;
     cisa_transmission.AESGCM_decrypt_encrypt := λ _ _ data ciphertext Heq,
       match Heq in _ = r return r = cisa_transmission.Return data with
       | eq_refl => eq_refl
       end |}.

(** A second stand-in for the cipher, which refuses a key that has not 16,
    24 or 32 bytes as the library does, and returns the data as they are
    otherwise. *)
Definition checked_key (key : list byte) (data : list byte)
    : cisa_transmission.result (list byte) :=
  if bool_decide (length key ∈ [16; 24; 32])
  then cisa_transmission.Return data
  else cisa_transmission.Raise "AESGCM key must be 128, 192, or 256 bits.".

Definition key_checking : cisa_transmission.AESGCM.
Proof.
  refine {| cisa_transmission.AESGCM_encrypt := λ key _ data, checked_key key data;
            cisa_transmission.AESGCM_decrypt := λ key _ data, checked_key key data |}.
  intros key nonce data ciphertext. unfold checked_key.
  destruct (bool_decide _); [|discriminate].
  intros Heq. injection Heq as <-. reflexivity.
Defined.

(** Assessment data known by their JSON text alone, for the concrete runs
    below. *)
Definition json_text : cisa_transmission.AssessmentData string :=
  {| cisa_transmission.json_dumps := λ text, text;
     cisa_transmission.dict_get := λ _ _, None |}.

(** A transmitter with a 256-bit key. *)
Definition test_transmitter : cisa_transmission.SecureTransmitter :=
  cisa_transmission.SecureTransmitter_init "https://cisa.gov/tribal-data-intake"
    None (encode "0123456789abcdef0123456789abcdef").

End samples.

(** * Properties *)

(** ** Counters *)

Section counters.
Implicit Types (m : gmap string nat) (k : string).

Lemma sum_counts_empty : sum_counts ∅ = 0.
Proof. apply map_fold_empty. Qed.

Lemma sum_counts_insert_fresh m k n :
  m !! k = None → sum_counts (<[k := n]> m) = n + sum_counts m.
Proof.
  intros Hk. unfold sum_counts.
  rewrite map_fold_insert_L; [done | intros; lia | done].
Qed.

Lemma sum_counts_lookup m k n :
  m !! k = Some n → sum_counts m = n + sum_counts (delete k m).
Proof.
  intros Hk. unfold sum_counts.
  rewrite (map_fold_delete_L _ _ k n m); [done | intros; lia | done].
Qed.

Lemma sum_counts_insert_present m k n n' :
  m !! k = Some n → sum_counts (<[k := n']> m) + n = sum_counts m + n'.
Proof.
  intros Hk. rewrite (sum_counts_lookup m k n Hk).
  rewrite <- (insert_delete_eq m k n').
  rewrite sum_counts_insert_fresh by apply lookup_delete_eq. lia.
Qed.

End counters.

(** ** The shareable view of an assessment *)

Module assessment_facts.
Import assessment_system.

Lemma str_in_allowed (level : string) :
  str_in level [ProtectionLevel_value PUBLIC; ProtectionLevel_value SENSITIVE] = true
  ↔ level = "public" ∨ level = "sensitive".
Proof.
  unfold str_in. cbn [existsb ProtectionLevel_value].
  rewrite !orb_true_iff, !String.eqb_eq. intuition discriminate.
Qed.

Lemma is_shareable_level (f : Finding) (level : string) :
  f !! "protection_level" = Some level →
  is_shareable f ↔ level = "public" ∨ level = "sensitive".
Proof. unfold is_shareable. intros ->. intuition congruence. Qed.

Lemma shareable_withheld_disjoint (f : Finding) :
  is_withheld f → ¬ is_shareable f.
Proof. unfold is_withheld, is_shareable. intros [H|H] [H'|H']; congruence. Qed.

(** On dicts that all carry a protection level the comprehension is a
    filter. *)
Lemma shareable_findings_filter (fs : list Finding) :
  labelled fs → shareable_findings fs = Some (filter is_shareable fs).
Proof.
  induction 1 as [|f fs [level Hlevel] _ IH]; [done|].
  cbn [shareable_findings]. rewrite Hlevel, IH, filter_cons.
  pose proof (is_shareable_level f level Hlevel) as Hf.
  pose proof (str_in_allowed level) as Hin.
  destruct (str_in level _) eqn:E; case_decide; try done.
  - exfalso. tauto.
  - exfalso. assert (false = true) by tauto. done.
Qed.

(** A dict without protection level makes the comprehension raise. *)
Lemma shareable_findings_raises (fs : list Finding) :
  ¬ labelled fs → shareable_findings fs = None.
Proof.
  induction fs as [|f fs IH]; intros Hfs.
  - destruct Hfs. constructor.
  - cbn [shareable_findings]. destruct (f !! "protection_level") eqn:Hf; [|done].
    rewrite IH; [done|]. intros Hl. apply Hfs. constructor; eauto.
Qed.

(** [add_finding] only ever appends dicts that carry a protection level. *)
Lemma add_finding_labelled `{Hashlib} now finding_type severity description
    level (a : Assessment) :
  labelled (findings a) →
  labelled (findings (add_finding now finding_type severity description level a)).
Proof.
  intros Ha. cbn [add_finding findings]. apply Forall_app. split; [done|].
  constructor; [|constructor].
  exists (ProtectionLevel_value level). by simplify_map_eq.
Qed.

Lemma Assessment_init_labelled `{Hashlib} now_id now ty nm :
  labelled (findings (Assessment_init now_id now ty nm)).
Proof. constructor. Qed.

(** *** The severity summary *)

Lemma tally_lookup (summary : gmap string nat) (f : Finding) (b : string) :
  tally summary f !! b =
  (λ n, n + (if decide (severity_of f = b) then 1 else 0)) <$> summary !! b.
Proof.
  unfold tally. fold (severity_of f).
  destruct (summary !! severity_of f) as [n|] eqn:Hs.
  - case_decide as Hb.
    + subst b. rewrite lookup_insert_eq, Hs. done.
    + rewrite lookup_insert_ne by done.
      destruct (summary !! b); cbn; f_equal; lia.
  - case_decide as Hb.
    + subst b. by rewrite Hs.
    + destruct (summary !! b); cbn; f_equal; lia.
Qed.

Lemma foldl_tally_lookup (fs : list Finding) (summary : gmap string nat) b :
  foldl tally summary fs !! b = (λ n, n + count_severity b fs) <$> summary !! b.
Proof.
  revert summary. induction fs as [|f fs IH]; intros summary.
  - cbn. destruct (summary !! b); cbn; f_equal; unfold count_severity; cbn; lia.
  - cbn [foldl]. rewrite IH, tally_lookup. unfold count_severity.
    rewrite filter_cons.
    destruct (summary !! b); cbn; [|done].
    f_equal. case_decide; cbn; lia.
Qed.

Lemma tally_sum (summary : gmap string nat) (f : Finding) :
  sum_counts (tally summary f) =
  sum_counts summary + (if decide (is_Some (summary !! severity_of f)) then 1 else 0).
Proof.
  unfold tally. fold (severity_of f).
  destruct (summary !! severity_of f) as [n|] eqn:Hs.
  - pose proof (sum_counts_insert_present summary _ n (n + 1) Hs).
    case_decide as Hd; [lia|]. destruct Hd. eauto.
  - case_decide as Hd; [|lia]. by destruct Hd.
Qed.

Lemma tally_dom (summary : gmap string nat) (f : Finding) :
  dom (tally summary f) = dom summary.
Proof.
  unfold tally. destruct (summary !! _) as [n|] eqn:Hs; [|done].
  rewrite dom_insert_L. apply elem_of_dom_2 in Hs.
  apply subseteq_union_1_L. by apply singleton_subseteq_l.
Qed.

Lemma foldl_tally_dom (fs : list Finding) (summary : gmap string nat) :
  dom (foldl tally summary fs) = dom summary.
Proof.
  revert summary. induction fs as [|f fs IH]; intros summary; [done|].
  cbn [foldl]. by rewrite IH, tally_dom.
Qed.

Lemma foldl_tally_sum (fs : list Finding) (summary : gmap string nat) :
  sum_counts (foldl tally summary fs) =
  sum_counts summary + length (filter (λ f, severity_of f ∈ dom summary) fs).
Proof.
  revert summary. induction fs as [|f fs IH]; intros summary.
  - cbn. lia.
  - cbn [foldl]. rewrite IH, tally_sum, tally_dom, filter_cons.
    destruct (decide (is_Some (summary !! severity_of f))) as [Hs|Hs].
    + rewrite decide_True by (by apply elem_of_dom). cbn [length]. lia.
    + rewrite decide_False by (by rewrite elem_of_dom). lia.
Qed.

Lemma initial_summary_dom :
  dom ({[ "critical" := 0; "high" := 0; "medium" := 0; "low" := 0; "info" := 0 ]}
         : gmap string nat) = list_to_set buckets.
Proof. rewrite !dom_insert_L, dom_singleton_L. unfold buckets. set_solver. Qed.

Lemma initial_summary_sum :
  sum_counts {[ "critical" := 0; "high" := 0; "medium" := 0; "low" := 0; "info" := 0 ]} = 0.
Proof.
  rewrite <- (insert_empty (M := gmap string) "info" 0).
  rewrite !sum_counts_insert_fresh by (by simplify_map_eq). by rewrite sum_counts_empty.
Qed.

Lemma initial_summary_lookup (b : string) :
  ({[ "critical" := 0; "high" := 0; "medium" := 0; "low" := 0; "info" := 0 ]}
     : gmap string nat) !! b = if decide (b ∈ buckets) then Some 0 else None.
Proof.
  unfold buckets. case_decide as Hb.
  - set_unfold. destruct Hb as [-> | [-> | [-> | [-> | [-> | []]]]]]; by vm_compute.
  - set_unfold. rewrite !lookup_insert_ne by naive_solver.
    apply lookup_singleton_ne. naive_solver.
Qed.

(** The summary holds, for each of the five buckets, the number of findings
    filed under it; it has no other key; its counts add up to the number of
    findings whose severity is one of the five. *)
Lemma severity_summary_spec (fs : list Finding) :
  (∀ b, b ∈ buckets →
        _calculate_severity_summary fs !! b = Some (count_severity b fs)) ∧
  (∀ b, b ∉ buckets → _calculate_severity_summary fs !! b = None) ∧
  sum_counts (_calculate_severity_summary fs) =
    length (filter (λ f, severity_of f ∈ buckets) fs).
Proof.
  unfold _calculate_severity_summary. split; [|split].
  - intros b Hb. rewrite foldl_tally_lookup, initial_summary_lookup.
    by rewrite decide_True.
  - intros b Hb. rewrite foldl_tally_lookup, initial_summary_lookup.
    by rewrite decide_False.
  - rewrite foldl_tally_sum, initial_summary_sum, initial_summary_dom.
    cbn. f_equal. apply list_filter_iff. intros f. set_solver.
Qed.

(** *** The statements about [get_shareable_results] *)

(** C1.  On an assessment whose findings all carry a protection level,
    [get_shareable_results] returns, and the findings it returns are exactly
    the findings labelled "public" or "sensitive", in the order of the input:
    every such finding of the input is returned, no finding labelled
    "confidential" or "tribal_sovereign" is, and [findings_count] is the
    number of findings returned. *)
Theorem shareable_results_filter (a : Assessment) :
  labelled (findings a) →
  ∃ res, get_shareable_results a = Some res ∧
    res_findings res = filter is_shareable (findings a) ∧
    (∀ f, f ∈ findings a → is_shareable f → f ∈ res_findings res) ∧
    (∀ f, is_withheld f → f ∉ res_findings res) ∧
    res_findings res `sublist_of` findings a ∧
    res_findings_count res = length (res_findings res).
Proof.
  intros Ha. unfold get_shareable_results.
  rewrite (shareable_findings_filter _ Ha). eexists. split; [done|]. cbn.
  split; [done|]. split; [|split; [|split; [|done]]].
  - intros f Hf Hs. by apply list_elem_of_filter.
  - intros f Hw [Hs _]%list_elem_of_filter.
    by apply (shareable_withheld_disjoint f).
  - apply sublist_filter.
Qed.

Lemma shareable_results_filter_witness :
  labelled (findings samples.mixed_assessment) ∧
  ∃ res, get_shareable_results samples.mixed_assessment = Some res ∧
    res_findings res = filter is_shareable (findings samples.mixed_assessment) ∧
    (∀ f, f ∈ findings samples.mixed_assessment → is_shareable f →
          f ∈ res_findings res) ∧
    (∀ f, is_withheld f → f ∉ res_findings res) ∧
    res_findings res `sublist_of` findings samples.mixed_assessment ∧
    res_findings_count res = length (res_findings res).
Proof.
  assert (labelled (findings samples.mixed_assessment)) as Ha.
  { apply (bool_decide_unpack _). vm_compute. exact I. }
  split; [exact Ha | exact (shareable_results_filter _ Ha)].
Defined.

(** C3, as it holds.  On an assessment whose findings all carry a protection
    level, the severity summary returned by [get_shareable_results] has the
    five buckets and no other key; each bucket counts the returned findings
    whose severity, lower-cased, is the name of the bucket, a finding without
    severity counting as "info"; a finding with any other severity is counted
    nowhere, so that the counts add up to the number of returned findings
    with one of the five severities, which is at most [findings_count]. *)
Theorem severity_summary_counts_known (a : Assessment) :
  labelled (findings a) →
  ∃ res, get_shareable_results a = Some res ∧
    (∀ b, b ∈ buckets →
       res_severity_summary res !! b = Some (count_severity b (res_findings res))) ∧
    (∀ b, b ∉ buckets → res_severity_summary res !! b = None) ∧
    sum_counts (res_severity_summary res) =
      length (filter (λ f, severity_of f ∈ buckets) (res_findings res)) ∧
    (sum_counts (res_severity_summary res) ≤ res_findings_count res)%nat.
Proof.
  intros Ha. unfold get_shareable_results.
  rewrite (shareable_findings_filter _ Ha). eexists. split; [done|]. cbn.
  destruct (severity_summary_spec (filter is_shareable (findings a)))
    as (Hin & Hout & Htotal).
  repeat split; try done.
  rewrite Htotal. apply length_filter.
Qed.

Lemma severity_summary_counts_known_witness :
  labelled (findings samples.mixed_assessment) ∧
  ∃ res, get_shareable_results samples.mixed_assessment = Some res ∧
    (∀ b, b ∈ buckets →
       res_severity_summary res !! b = Some (count_severity b (res_findings res))) ∧
    (∀ b, b ∉ buckets → res_severity_summary res !! b = None) ∧
    sum_counts (res_severity_summary res) =
      length (filter (λ f, severity_of f ∈ buckets) (res_findings res)) ∧
    (sum_counts (res_severity_summary res) ≤ res_findings_count res)%nat.
Proof.
  assert (labelled (findings samples.mixed_assessment)) as Ha.
  { apply (bool_decide_unpack _). vm_compute. exact I. }
  split; [exact Ha | exact (severity_summary_counts_known _ Ha)].
Defined.

(** C3, as it is written, fails: the one finding of [urgent_assessment] is
    returned, its severity "urgent" is none of the five, and it is counted
    neither under "info" nor anywhere else; the counts add up to 0 where
    [findings_count] is 1. *)
Lemma unknown_severity_not_counted :
  ∃ res, get_shareable_results samples.urgent_assessment = Some res ∧
    res_findings_count res = 1 ∧
    res_severity_summary res !! "info" = Some 0 ∧
    sum_counts (res_severity_summary res) ≠ res_findings_count res.
Proof. eexists. split; [vm_compute; reflexivity|]. by vm_compute. Qed.

End assessment_facts.

(** ** Transmission records and the tracker *)

Module tracker_facts.
Import tribal_data_tracker.

(** *** Attributes across the operations on one record *)

Lemma truthy_nonempty (v : option string) : truthy v = true ↔ is_nonempty v.
Proof.
  unfold is_nonempty. destruct v as [[|c s]|]; cbn.
  - split; [done|]. by intros (s & [= <-] & Hs).
  - split; [|done]. intros _. by exists (String c s).
  - split; [done|]. by intros (s & ? & _).
Qed.

Lemma nonempty_set (v : option string) : is_nonempty v → is_set v.
Proof. intros (s & -> & _). done. Qed.

Lemma sovereign_eqb (r : DataTransmissionRecord) :
  String.eqb (classification r) DataClassification.TRIBAL_SOVEREIGN = true
  ↔ classification r = DataClassification.TRIBAL_SOVEREIGN.
Proof. apply String.eqb_eq. Qed.

(** The four outcomes of the gate, in the order of its tests. *)
Lemma validate_sovereign now r :
  classification r = DataClassification.TRIBAL_SOVEREIGN →
  validate_transmission now r =
  (false, add_audit_entry now "VALIDATION_FAILED"
            "TRIBAL_SOVEREIGN data cannot leave network" r).
Proof. intros Hc%sovereign_eqb. unfold validate_transmission. by rewrite Hc. Qed.

Lemma validate_no_method now r :
  classification r ≠ DataClassification.TRIBAL_SOVEREIGN →
  truthy (encryption_method r) = false →
  validate_transmission now r =
  (false, add_audit_entry now "VALIDATION_FAILED"
            "No encryption method specified" r).
Proof.
  intros Hc He. unfold validate_transmission.
  destruct (String.eqb _ _) eqn:E; [by apply sovereign_eqb in E|].
  by rewrite He.
Qed.

Lemma validate_no_hash now r :
  classification r ≠ DataClassification.TRIBAL_SOVEREIGN →
  truthy (encryption_method r) = true →
  truthy (data_hash r) = false →
  validate_transmission now r =
  (false, add_audit_entry now "VALIDATION_FAILED" "Data hash not calculated" r).
Proof.
  intros Hc He Hh. unfold validate_transmission.
  destruct (String.eqb _ _) eqn:E; [by apply sovereign_eqb in E|].
  by rewrite He, Hh.
Qed.

Lemma validate_pass now r :
  classification r ≠ DataClassification.TRIBAL_SOVEREIGN →
  truthy (encryption_method r) = true →
  truthy (data_hash r) = true →
  validate_transmission now r =
  (true, assign_status TransmissionStatus.APPROVED
           (add_audit_entry now "VALIDATION_PASSED"
              "All validation checks passed" r)).
Proof.
  intros Hc He Hh. unfold validate_transmission.
  destruct (String.eqb _ _) eqn:E; [by apply sovereign_eqb in E|].
  by rewrite He, Hh.
Qed.

(** The gate always lands in one of the four. *)
Lemma validate_cases now r :
  (classification r = DataClassification.TRIBAL_SOVEREIGN ∧
   validate_transmission now r =
   (false, add_audit_entry now "VALIDATION_FAILED"
             "TRIBAL_SOVEREIGN data cannot leave network" r))
  ∨ (classification r ≠ DataClassification.TRIBAL_SOVEREIGN ∧
     truthy (encryption_method r) = false ∧
     validate_transmission now r =
     (false, add_audit_entry now "VALIDATION_FAILED"
               "No encryption method specified" r))
  ∨ (classification r ≠ DataClassification.TRIBAL_SOVEREIGN ∧
     truthy (encryption_method r) = true ∧
     truthy (data_hash r) = false ∧
     validate_transmission now r =
     (false, add_audit_entry now "VALIDATION_FAILED" "Data hash not calculated" r))
  ∨ (classification r ≠ DataClassification.TRIBAL_SOVEREIGN ∧
     truthy (encryption_method r) = true ∧
     truthy (data_hash r) = true ∧
     validate_transmission now r =
     (true, assign_status TransmissionStatus.APPROVED
              (add_audit_entry now "VALIDATION_PASSED"
                 "All validation checks passed" r))).
Proof.
  destruct (decide (classification r = DataClassification.TRIBAL_SOVEREIGN))
    as [Hc|Hc].
  { left. eauto using validate_sovereign. }
  right. destruct (truthy (encryption_method r)) eqn:He.
  2: { left. eauto using validate_no_method. }
  right. destruct (truthy (data_hash r)) eqn:Hh.
  - right. eauto using validate_pass.
  - left. eauto using validate_no_hash.
Qed.

(** *** The statements about the gate and the log *)

(** C2, as it holds.  [validate_transmission] returns true exactly when the
    classification is not TRIBAL_SOVEREIGN and both [data_hash] and
    [encryption_method] hold a non-empty string; a TRIBAL_SOVEREIGN record
    fails whatever its hash and encryption method; a record that passes has
    status APPROVED after the call. *)
Theorem validation_gate (now : string) (r : DataTransmissionRecord) :
  ((validate_transmission now r).1 = true ↔
     classification r ≠ DataClassification.TRIBAL_SOVEREIGN ∧
     is_nonempty (data_hash r) ∧ is_nonempty (encryption_method r)) ∧
  (classification r = DataClassification.TRIBAL_SOVEREIGN →
     (validate_transmission now r).1 = false) ∧
  ((validate_transmission now r).1 = true →
     status (validate_transmission now r).2 = TransmissionStatus.APPROVED).
Proof.
  rewrite <- !truthy_nonempty.
  destruct (validate_cases now r)
    as [(Hc & ->) | [(Hc & He & ->) | [(Hc & He & Hh & ->) | (Hc & He & Hh & ->)]]];
    cbn [fst snd]; rewrite ?He, ?Hh; repeat split; try done; intuition congruence.
Qed.

(** C2, as it is written, fails: on [empty_method_record] the classification
    is SENSITIVE and both attributes are set, the encryption method to the
    empty string, and validation returns false. *)
Lemma set_but_empty_method_is_refused :
  ¬ ((validate_transmission "2024-01-01T00:00:03" samples.empty_method_record).1 = true ↔
       classification samples.empty_method_record
         ≠ DataClassification.TRIBAL_SOVEREIGN ∧
       is_set (data_hash samples.empty_method_record) ∧
       is_set (encryption_method samples.empty_method_record)).
Proof.
  intros [_ Hpass].
  assert ((validate_transmission "2024-01-01T00:00:03"
             samples.empty_method_record).1 = true) as Htrue.
  { apply Hpass. by vm_compute. }
  vm_compute in Htrue. discriminate.
Qed.

(** The record of that counterexample arises from the calls of the
    interface: creation, [set_data_hash], [set_encryption("")]. *)
Lemma empty_method_by_calls `{Hashlib} now_id random_hex now now_audit
    data_type destination size now_hash data now_method now_validate :
  let r := set_encryption now_method ""
             (set_data_hash now_hash data
                (add_audit_entry now_audit "CREATED" "Transmission record created"
                   (DataTransmissionRecord_init now_id random_hex now data_type
                      destination DataClassification.SENSITIVE size))) in
  classification r ≠ DataClassification.TRIBAL_SOVEREIGN ∧
  is_set (data_hash r) ∧ is_set (encryption_method r) ∧
  validate_transmission now_validate r =
  (false, add_audit_entry now_validate "VALIDATION_FAILED"
            "No encryption method specified" r).
Proof. intros r. by repeat split. Qed.

(** Being set is not holding a value the gate accepts: [set_encryption("")]
    on an approved record leaves it approved, with the empty string as its
    method, and a second validation would refuse it. *)
Lemma approved_then_emptied (now now' : string) (r : DataTransmissionRecord) :
  status r = TransmissionStatus.APPROVED →
  status (set_encryption now "" r) = TransmissionStatus.APPROVED ∧
  encryption_method (set_encryption now "" r) = Some "" ∧
  (validate_transmission now' (set_encryption now "" r)).1 = false.
Proof.
  intros Hs. split; [done|]. split; [done|].
  destruct (validate_cases now' (set_encryption now "" r))
    as [(Hc & ->) | [(Hc & He & ->) | [(Hc & He & Hh & ->) | (Hc & He & Hh & ->)]]];
    done.
Qed.

(** C5.  [log_transmission] leaves the record with status LOGGED, whatever
    its status before the call; in particular right after a validation,
    passed or failed. *)
Theorem log_sets_logged (self : TribalDataTracker) (now_log now_audit : string)
    (r : DataTransmissionRecord) (fs : Files) :
  status (log_transmission self now_log now_audit r fs).1
    = TransmissionStatus.LOGGED ∧
  ∀ now, status (log_transmission self now_log now_audit
                   (validate_transmission now r).2 fs).1
           = TransmissionStatus.LOGGED.
Proof. done. Qed.

(** What [log_transmission] leaves in the files: one more line at the end of
    the main log and the record file, both holding the record as it was when
    the call was made, that is before its status became LOGGED. *)
Lemma log_transmission_files (self : TribalDataTracker)
    (now_log now_audit : string) (r : DataTransmissionRecord) (fs : Files) :
  appended (log_transmission self now_log now_audit r fs).2 !! main_log_file self
    = Some (default [] (appended fs !! main_log_file self)
              ++ [{| log_timestamp := now_log ++ "Z"; log_record := r |}])%list ∧
  written (log_transmission self now_log now_audit r fs).2
    !! path_join (log_directory self) ("transmission_" ++ record_id r ++ ".json")
    = Some r.
Proof. cbn. by rewrite !lookup_insert_eq. Qed.

(** C6.  [validate_transmission] appends exactly one entry to the audit
    trail, stamped with the clock reading, pass or fail.  The entry is the
    one of the first test that applies: TRIBAL_SOVEREIGN classification;
    else no encryption method (None or the empty string); else no hash
    (None or the empty string); else the pass.  The returned boolean is true
    exactly when the entry is the one of the pass. *)
Theorem validate_appends_one_entry (now : string) (r : DataTransmissionRecord) :
  ∃ e, audit_trail (validate_transmission now r).2 = (audit_trail r ++ [e])%list ∧
    entry_timestamp e = now ++ "Z" ∧
    (classification r = DataClassification.TRIBAL_SOVEREIGN →
       action e = "VALIDATION_FAILED" ∧
       details e = "TRIBAL_SOVEREIGN data cannot leave network") ∧
    (classification r ≠ DataClassification.TRIBAL_SOVEREIGN →
     ¬ is_nonempty (encryption_method r) →
       action e = "VALIDATION_FAILED" ∧
       details e = "No encryption method specified") ∧
    (classification r ≠ DataClassification.TRIBAL_SOVEREIGN →
     is_nonempty (encryption_method r) → ¬ is_nonempty (data_hash r) →
       action e = "VALIDATION_FAILED" ∧
       details e = "Data hash not calculated") ∧
    (classification r ≠ DataClassification.TRIBAL_SOVEREIGN →
     is_nonempty (encryption_method r) → is_nonempty (data_hash r) →
       action e = "VALIDATION_PASSED" ∧
       details e = "All validation checks passed") ∧
    ((validate_transmission now r).1 = true ↔ action e = "VALIDATION_PASSED").
Proof.
  pose proof (truthy_nonempty (encryption_method r)) as Te.
  pose proof (truthy_nonempty (data_hash r)) as Th.
  destruct (validate_cases now r)
    as [(Hc & ->) | [(Hc & He & ->) | [(Hc & He & Hh & ->) | (Hc & He & Hh & ->)]]];
    cbn [fst snd]; rewrite ?He, ?Hh in Te, Th; eexists; (split; [reflexivity|]);
    cbn; repeat split; try done; intuition congruence.
Qed.

(** C8.  When [validate_transmission] returns false the status of the record
    is the one it had before the call. *)
Theorem failed_validation_keeps_status (now : string)
    (r : DataTransmissionRecord) :
  (validate_transmission now r).1 = false →
  status (validate_transmission now r).2 = status r.
Proof.
  destruct (validate_cases now r)
    as [(Hc & ->) | [(Hc & He & ->) | [(Hc & He & Hh & ->) | (Hc & He & Hh & ->)]]];
    cbn [fst snd]; done.
Qed.

Lemma failed_validation_keeps_status_witness :
  (validate_transmission "2024-01-01T00:00:07" samples.sovereign_record).1 = false ∧
  status (validate_transmission "2024-01-01T00:00:07" samples.sovereign_record).2
    = status samples.sovereign_record.
Proof.
  assert ((validate_transmission "2024-01-01T00:00:07"
             samples.sovereign_record).1 = false) as Hfail by (vm_compute; reflexivity).
  split; [exact Hfail | exact (failed_validation_keeps_status _ _ Hfail)].
Defined.

(** *** Calls on a world of shared objects *)

Section world.
Context `{Hashlib}.

Lemma update_object_Some l f (w w' : World) :
  update_object l f w = Some w' →
  ∃ r, heap w !! l = Some r ∧ heap w' = <[l := f r]> (heap w) ∧
       tracker w' = tracker w ∧ files w' = files w.
Proof.
  unfold update_object. destruct (heap w !! l) as [r|]; [|done].
  intros [= <-]. by exists r.
Qed.

Lemma insert_last (h : list DataTransmissionRecord) r r' :
  <[length h := r']> (h ++ [r])%list = (h ++ [r'])%list.
Proof. rewrite insert_app_r_alt by done. by rewrite Nat.sub_diag. Qed.

(** A call either acts on one object of the heap, or allocates one at the
    end of the heap; [records] only grows, by the reference of an object
    allocated by the same call. *)
Lemma step_heap (w w' : World) (c : Call) :
  step w c = Some w' →
  (∃ l r r', heap w !! l = Some r ∧ record_step r r' ∧
             heap w' = <[l := r']> (heap w) ∧
             records (tracker w') = records (tracker w))
  ∨ (∃ r0, born r0 ∧ heap w' = (heap w ++ [r0])%list ∧
           (records (tracker w') = records (tracker w) ∨
            records (tracker w') = (records (tracker w) ++ [length (heap w)])%list)).
Proof.
  destruct c; cbn [step]; intros Hstep.
  - injection Hstep as <-. right. eexists. split; [constructor|]. cbn. eauto.
  - unfold create_transmission_record in Hstep.
    apply update_object_Some in Hstep as (r & Hr & Hheap & Htr & _).
    cbn in Hr, Hheap, Htr.
    rewrite lookup_app_r, Nat.sub_diag in Hr by done. injection Hr as <-.
    rewrite insert_last in Hheap.
    right. eexists. split; [apply born_create|]. split; [exact Hheap|].
    right. by rewrite Htr.
  - apply update_object_Some in Hstep as (r & Hr & Hheap & Htr & _).
    left. exists l, r. eexists. rewrite Htr. repeat split; [done|constructor|done].
  - apply update_object_Some in Hstep as (r & Hr & Hheap & Htr & _).
    left. exists l, r. eexists. rewrite Htr. repeat split; [done|constructor|done].
  - apply update_object_Some in Hstep as (r & Hr & Hheap & Htr & _).
    left. exists l, r. eexists. rewrite Htr. repeat split; [done|constructor|done].
  - apply update_object_Some in Hstep as (r & Hr & Hheap & Htr & _).
    left. exists l, r. eexists. rewrite Htr. repeat split; [done|constructor|done].
  - apply update_object_Some in Hstep as (r & Hr & Hheap & Htr & _).
    left. exists l, r. eexists. rewrite Htr. repeat split; [done|constructor|done].
  - apply update_object_Some in Hstep as (r & Hr & Hheap & Htr & _).
    left. exists l, r. eexists. rewrite Htr. repeat split; [done|constructor|done].
  - destruct (heap w !! l) as [r|] eqn:Hr; [|done].
    injection Hstep as <-. left.
    exists l, r, (log_transmission (tracker w) now_log now_audit r (files w)).1.
    split; [done|]. split; [apply step_log|]. by split.
Qed.

(** What each call on a record appends to its audit trail: one entry. *)
Lemma record_step_audit_trail (r r' : DataTransmissionRecord) :
  record_step r r' → ∃ e, audit_trail r' = (audit_trail r ++ [e])%list.
Proof.
  destruct 1; try (eexists; reflexivity).
  destruct (validate_cases now r)
    as [(Hc & ->) | [(Hc & He & ->) | [(Hc & He & Hh & ->) | (Hc & He & Hh & ->)]]];
    eexists; reflexivity.
Qed.

Lemma born_audit_trail (r : DataTransmissionRecord) :
  born r →
  audit_trail r = [] ∨
  ∃ now, audit_trail r = [entry now "CREATED" "Transmission record created"].
Proof. destruct 1; [by left | right; by eexists]. Qed.

(** What each call on a record keeps of the gate's claim. *)
Lemma born_approved_ok (r : DataTransmissionRecord) : born r → approved_ok r.
Proof. destruct 1; intros Hs; cbn in Hs; discriminate. Qed.

Lemma record_step_approved_ok (r r' : DataTransmissionRecord) :
  record_step r r' → approved_ok r → approved_ok r'.
Proof.
  unfold approved_ok, is_set.
  destruct 1; intros Hr; cbn; try done; try (intros; discriminate).
  - intros Hs. destruct (Hr Hs) as (? & ? & ?). done.
  - intros Hs. destruct (Hr Hs) as (? & ? & ?). done.
  - destruct (validate_cases now r)
      as [(Hc & ->) | [(Hc & He & ->) | [(Hc & He & Hh & ->) | (Hc & He & Hh & ->)]]];
      cbn; try done.
    intros _. split; [done|].
    apply truthy_nonempty, nonempty_set in He.
    apply truthy_nonempty, nonempty_set in Hh. done.
Qed.

Lemma step_approved_ok (w w' : World) (c : Call) :
  step w c = Some w' → Forall approved_ok (heap w) → Forall approved_ok (heap w').
Proof.
  intros [(l & r & r' & Hr & Hstep & -> & _) | (r0 & Hborn & -> & _)]%step_heap Hw.
  - apply Forall_insert; [done|].
    eapply record_step_approved_ok; [done|].
    by eapply Forall_lookup_1.
  - apply Forall_app. split; [done|]. constructor; [|done].
    by apply born_approved_ok.
Qed.

Lemma run_approved_ok (cs : list Call) (w w' : World) :
  run w cs = Some w' → Forall approved_ok (heap w) → Forall approved_ok (heap w').
Proof.
  revert w. induction cs as [|c cs IH]; intros w; cbn [run].
  - by intros [= <-].
  - destruct (step w c) as [w1|] eqn:Hstep; [|done].
    intros Hrun Hw. eapply IH; [done|]. by eapply step_approved_ok.
Qed.

(** Every reference of the tracker denotes an object, throughout a run. *)
Lemma step_world_ok (w w' : World) (c : Call) :
  step w c = Some w' → world_ok w → world_ok w'.
Proof.
  unfold world_ok.
  intros [(l & r & r' & Hr & _ & -> & ->) | (r0 & _ & -> & [-> | ->])]%step_heap Hw.
  - by rewrite length_insert.
  - rewrite length_app. eapply Forall_impl; [done|]. cbn. lia.
  - rewrite length_app. apply Forall_app. split.
    + eapply Forall_impl; [done|]. cbn. lia.
    + constructor; [cbn; lia | done].
Qed.

Lemma run_world_ok (cs : list Call) (w w' : World) :
  run w cs = Some w' → world_ok w → world_ok w'.
Proof.
  revert w. induction cs as [|c cs IH]; intros w; cbn [run].
  - by intros [= <-].
  - destruct (step w c) as [w1|] eqn:Hstep; [|done].
    intros Hrun Hw. eapply IH; [done|]. by eapply step_world_ok.
Qed.

Lemma init_world_ok dir : world_ok (init_world dir).
Proof. constructor. Qed.

(** An object keeps its reference and its audit trail only grows, call
    after call. *)
Lemma step_audit_trail (w w' : World) (c : Call) :
  step w c = Some w' →
  ∀ l r, heap w !! l = Some r →
  ∃ r' new, heap w' !! l = Some r' ∧
            audit_trail r' = (audit_trail r ++ new)%list.
Proof.
  intros [(l0 & r0 & r1 & Hr0 & Hstep & -> & _) | (r0 & _ & -> & _)]%step_heap l r Hr.
  - destruct (decide (l0 = l)) as [->|Hne].
    + apply record_step_audit_trail in Hstep as [e He].
      exists r1, [e]. rewrite list_lookup_insert_eq by by eapply lookup_lt_Some.
      split; [done|]. congruence.
    + exists r, []. rewrite list_lookup_insert_ne by done.
      by rewrite app_nil_r.
  - exists r, []. rewrite lookup_app_l by by eapply lookup_lt_Some.
    by rewrite app_nil_r.
Qed.

Lemma run_audit_trail (cs : list Call) (w w' : World) :
  run w cs = Some w' →
  ∀ l r, heap w !! l = Some r →
  ∃ r', heap w' !! l = Some r' ∧ audit_trail r `prefix_of` audit_trail r'.
Proof.
  revert w. induction cs as [|c cs IH]; intros w; cbn [run].
  - intros [= <-] l r Hr. by exists r.
  - destruct (step w c) as [w1|] eqn:Hstep; [|done].
    intros Hrun l r Hr.
    destruct (step_audit_trail _ _ _ Hstep l r Hr) as (r1 & new & Hr1 & Hnew).
    destruct (IH _ Hrun l r1 Hr1) as (r' & Hr' & Hpre).
    exists r'. split; [done|]. etrans; [|done]. rewrite Hnew. by apply prefix_app_r.
Qed.

End world.

(** *** The summary *)

Lemma bump_sum (k : string) (m : gmap string nat) :
  sum_counts (bump k m) = sum_counts m + 1.
Proof.
  unfold bump. destruct (m !! k) as [n|] eqn:Hk; cbn.
  - pose proof (sum_counts_insert_present m k n (n + 1) Hk). lia.
  - rewrite sum_counts_insert_fresh by done. lia.
Qed.

Lemma bump_positive (k : string) (m : gmap string nat) :
  positive m → positive (bump k m).
Proof. intros Hm. apply map_Forall_insert_2; [lia | done]. Qed.

Lemma foldl_count_record (rs : list DataTransmissionRecord)
    (s c d s' c' d' : gmap string nat) :
  foldl count_record (s, c, d) rs = (s', c', d') →
  (sum_counts s' = sum_counts s + length rs ∧
   sum_counts c' = sum_counts c + length rs ∧
   sum_counts d' = sum_counts d + length rs) ∧
  (positive s → positive s') ∧ (positive c → positive c') ∧
  (positive d → positive d').
Proof.
  revert s c d. induction rs as [|r rs IH]; intros s c d; cbn [foldl count_record].
  - intros [= <- <- <-]. cbn. repeat split; (lia || done).
  - intros Hfold. apply IH in Hfold as ((Hs & Hc & Hd) & Ps & Pc & Pd).
    rewrite !bump_sum in *. cbn [length].
    repeat split; try lia; eauto using bump_positive.
Qed.

Lemma bump_lookup (k k' : string) (m : gmap string nat) :
  default 0 (bump k m !! k') =
  default 0 (m !! k') + (if decide (k = k') then 1 else 0).
Proof.
  unfold bump. case_decide as Hk.
  - subst k'. by rewrite lookup_insert_eq.
  - rewrite lookup_insert_ne by done. lia.
Qed.

(** Each breakdown holds, under a key, the number of records with that
    key. *)
Lemma foldl_count_record_lookup (rs : list DataTransmissionRecord)
    (s c d s' c' d' : gmap string nat) (k : string) :
  foldl count_record (s, c, d) rs = (s', c', d') →
  default 0 (s' !! k) = default 0 (s !! k) + length (filter (λ r, status r = k) rs) ∧
  default 0 (c' !! k) =
    default 0 (c !! k) + length (filter (λ r, classification r = k) rs) ∧
  default 0 (d' !! k) =
    default 0 (d !! k) + length (filter (λ r, destination r = k) rs).
Proof.
  revert s c d. induction rs as [|r rs IH]; intros s c d; cbn [foldl count_record].
  - intros [= <- <- <-]. cbn. lia.
  - intros Hfold. apply IH in Hfold as (Hs & Hc & Hd).
    rewrite !bump_lookup in *. rewrite !filter_cons.
    repeat case_decide; cbn [length]; lia.
Qed.

Lemma status_breakdown_lookup (w : World) (k : string) :
  default 0 (status_breakdown (get_transmission_summary w) !! k) =
  length (filter (λ r, status r = k) (tracked w)).
Proof.
  unfold get_transmission_summary.
  destruct (foldl count_record (∅, ∅, ∅) (tracked w)) as [[s c] d] eqn:Hfold.
  apply (foldl_count_record_lookup _ _ _ _ _ _ _ k) in Hfold as (Hs & _ & _).
  cbn. by rewrite Hs, lookup_empty.
Qed.

Lemma tracked_length (w : World) :
  world_ok w → length (tracked w) = length (records (tracker w)).
Proof.
  unfold world_ok, tracked. induction 1 as [|l ls Hl _ IH]; [done|].
  cbn. apply lookup_lt_is_Some in Hl as [r ->]. cbn. by rewrite IH.
Qed.

(** C10.  In a world where every reference of the tracker denotes an
    object, the summary gives the number of records held by the tracker as
    [total_transmissions]; the counts of each of the three breakdowns add up
    to it, and every count is positive. *)
Theorem summary_counts_add_up (w : World) :
  world_ok w →
  total_transmissions (get_transmission_summary w) = length (records (tracker w)) ∧
  sum_counts (status_breakdown (get_transmission_summary w))
    = total_transmissions (get_transmission_summary w) ∧
  sum_counts (classification_breakdown (get_transmission_summary w))
    = total_transmissions (get_transmission_summary w) ∧
  sum_counts (destination_breakdown (get_transmission_summary w))
    = total_transmissions (get_transmission_summary w) ∧
  positive (status_breakdown (get_transmission_summary w)) ∧
  positive (classification_breakdown (get_transmission_summary w)) ∧
  positive (destination_breakdown (get_transmission_summary w)).
Proof.
  intros Hw. unfold get_transmission_summary.
  destruct (foldl count_record (∅, ∅, ∅) (tracked w)) as [[s c] d] eqn:Hfold.
  apply foldl_count_record in Hfold as ((Hs & Hc & Hd) & Ps & Pc & Pd).
  rewrite sum_counts_empty, tracked_length in * by done. cbn.
  repeat split; try done; (apply Ps || apply Pc || apply Pd); apply map_Forall_empty.
Qed.

Lemma summary_counts_add_up_witness :
  world_ok samples.two_record_world ∧
  total_transmissions (get_transmission_summary samples.two_record_world) = 2 ∧
  sum_counts (status_breakdown (get_transmission_summary samples.two_record_world)) = 2 ∧
  positive (status_breakdown (get_transmission_summary samples.two_record_world)).
Proof.
  assert (world_ok samples.two_record_world) as Hw.
  { apply (bool_decide_unpack _). vm_compute. exact I. }
  destruct (summary_counts_add_up samples.two_record_world Hw)
    as (Htotal & Hstatus & _ & _ & Pstatus & _).
  split; [exact Hw|]. split; [exact Htotal|]. split; [|exact Pstatus].
  rewrite Hstatus. exact Htotal.
Defined.

(** *** The statements about runs *)

(** C4.  After any sequence of calls from a fresh tracker, every object
    whose status is APPROVED has a classification other than
    TRIBAL_SOVEREIGN, an encryption method that is set and a hash that is
    set. *)
Theorem approved_implies_gate `{Hashlib} (dir : string) (cs : list Call)
    (w : World) :
  run (init_world dir) cs = Some w →
  ∀ l r, heap w !! l = Some r →
  status r = TransmissionStatus.APPROVED →
  classification r ≠ DataClassification.TRIBAL_SOVEREIGN ∧
  is_set (encryption_method r) ∧
  is_set (data_hash r).
Proof.
  intros Hrun l r Hr.
  assert (Forall approved_ok (heap w)) as Hall.
  { eapply run_approved_ok; [done|]. constructor. }
  by eapply (Forall_lookup_1 approved_ok).
Qed.

Lemma approved_implies_gate_witness :
  ∃ w r,
    @run samples.fixed_digest (init_world "./logs")
      (take 4 samples.tracker_test_calls) = Some w ∧
    heap w !! 0 = Some r ∧
    status r = TransmissionStatus.APPROVED ∧
    classification r ≠ DataClassification.TRIBAL_SOVEREIGN ∧
    is_set (encryption_method r) ∧
    is_set (data_hash r).
Proof.
  eexists _, _.
  split; [vm_compute; reflexivity|].
  split; [vm_compute; reflexivity|].
  split; [reflexivity|].
  refine (@approved_implies_gate samples.fixed_digest "./logs"
            (take 4 samples.tracker_test_calls) _ _ 0 _ _ _);
    [vm_compute; reflexivity | vm_compute; reflexivity | reflexivity].
Defined.

(** C7.  A call, whichever it is, keeps every entry of every audit trail:
    the trail of each object after the call is its trail before the call
    followed by the entries the call adds, and an object allocated by the
    call starts from the empty trail, to which [create_transmission_record]
    adds the CREATED entry. *)
Theorem audit_trail_append_only `{Hashlib} (w w' : World) (c : Call) :
  step w c = Some w' →
  (∀ l r, heap w !! l = Some r →
     ∃ r' new, heap w' !! l = Some r' ∧
               audit_trail r' = (audit_trail r ++ new)%list) ∧
  (∀ l r', heap w !! l = None → heap w' !! l = Some r' →
     audit_trail r' = [] ∨
     ∃ now, audit_trail r' = [entry now "CREATED" "Transmission record created"]).
Proof.
  intros Hstep. split; [exact (step_audit_trail _ _ _ Hstep)|].
  intros l r' Hnone Hr'.
  apply step_heap in Hstep
    as [(l0 & r0 & r1 & Hr0 & _ & Hheap & _) | (r0 & Hborn & Hheap & _)];
    rewrite Hheap in Hr'.
  - apply lookup_ge_None in Hnone.
    rewrite list_lookup_insert_ne in Hr'.
    + apply lookup_lt_Some in Hr'. lia.
    + apply lookup_lt_Some in Hr0. lia.
  - apply lookup_ge_None in Hnone.
    rewrite lookup_app_r in Hr' by done.
    apply list_lookup_singleton_Some in Hr' as [_ <-].
    by apply born_audit_trail.
Qed.

Lemma audit_trail_append_only_witness :
  ∃ w',
    @step samples.fixed_digest samples.two_record_world
      (Validate 0 "2024-01-01T00:00:03") = Some w' ∧
    (∀ l r, heap samples.two_record_world !! l = Some r →
       ∃ r' new, heap w' !! l = Some r' ∧
                 audit_trail r' = (audit_trail r ++ new)%list) ∧
    (∀ l r', heap samples.two_record_world !! l = None →
       heap w' !! l = Some r' →
       audit_trail r' = [] ∨
       ∃ now, audit_trail r' = [entry now "CREATED" "Transmission record created"]).
Proof.
  eexists. split; [vm_compute; reflexivity|].
  apply (@audit_trail_append_only samples.fixed_digest samples.two_record_world _
           (Validate 0 "2024-01-01T00:00:03")).
  vm_compute. reflexivity.
Defined.

End tracker_facts.

(** ** The encrypted envelope *)

Module transmission_facts.
Import cisa_transmission.

(** *** base64 *)

Lemma b64_value_char (s : sextet) : b64_value (b64_char s) = Some s.
Proof.
  destruct s as [[[[[b5 b4] b3] b2] b1] b0].
  destruct b5, b4, b3, b2, b1, b0; reflexivity.
Qed.

Lemma b64_value_pad : b64_value "=" = None.
Proof. reflexivity. Qed.

Lemma byte_of_bits_of (x : byte) (x7 x6 x5 x4 x3 x2 x1 x0 : bool) :
  bits_of x = (x7, x6, x5, x4, x3, x2, x1, x0) →
  byte_of x7 x6 x5 x4 x3 x2 x1 x0 = x.
Proof.
  unfold bits_of, byte_of.
  destruct (Byte.to_bits x) as (b0 & b1 & b2 & b3 & b4 & b5 & b6 & b7) eqn:Hx.
  intros [= <- <- <- <- <- <- <- <-]. rewrite <- Hx. apply Byte.of_bits_to_bits.
Qed.

(** Induction on a list of bytes, three at a time. *)
Lemma bytes_ind3 (P : list byte → Prop) :
  P [] → (∀ x, P [x]) → (∀ x y, P [x; y]) →
  (∀ x y z rest, P rest → P (x :: y :: z :: rest)) →
  ∀ data, P data.
Proof.
  intros H0 H1 H2 H3.
  assert (∀ data, P data ∧ (∀ x, P (x :: data)) ∧ (∀ x y, P (x :: y :: data)))
    as Hall.
  { induction data as [|z rest (IH0 & IH1 & IH2)]; [by auto|].
    split; [apply IH1|]. split; [intros; apply IH2|]. intros x y. by apply H3. }
  intros data. apply Hall.
Qed.

(** Decoding what the encoder wrote gives the bytes back. *)
Lemma b64decode_b64encode (data : list byte) :
  b64decode (b64encode data) = Return data.
Proof.
  induction data as [|x|x y|x y z rest IH] using bytes_ind3.
  - reflexivity.
  - cbn [b64encode].
    destruct (bits_of x) as [[[[[[[x7 x6] x5] x4] x3] x2] x1] x0] eqn:Hx.
    cbn [b64decode]. rewrite !b64_value_char, b64_value_pad. cbn -[byte_of].
    by rewrite (byte_of_bits_of x _ _ _ _ _ _ _ _ Hx).
  - cbn [b64encode].
    destruct (bits_of x) as [[[[[[[x7 x6] x5] x4] x3] x2] x1] x0] eqn:Hx.
    destruct (bits_of y) as [[[[[[[y7 y6] y5] y4] y3] y2] y1] y0] eqn:Hy.
    cbn [b64decode]. rewrite !b64_value_char, b64_value_pad. cbn -[byte_of].
    by rewrite (byte_of_bits_of x _ _ _ _ _ _ _ _ Hx),
               (byte_of_bits_of y _ _ _ _ _ _ _ _ Hy).
  - cbn [b64encode].
    destruct (bits_of x) as [[[[[[[x7 x6] x5] x4] x3] x2] x1] x0] eqn:Hx.
    destruct (bits_of y) as [[[[[[[y7 y6] y5] y4] y3] y2] y1] y0] eqn:Hy.
    destruct (bits_of z) as [[[[[[[z7 z6] z5] z4] z3] z2] z1] z0] eqn:Hz.
    cbn [b64decode]. rewrite !b64_value_char, IH. cbn -[byte_of].
    by rewrite (byte_of_bits_of x _ _ _ _ _ _ _ _ Hx),
               (byte_of_bits_of y _ _ _ _ _ _ _ _ Hy),
               (byte_of_bits_of z _ _ _ _ _ _ _ _ Hz).
Qed.

(** *** The round trip *)

Lemma bind_Return {A B} (a : A) (k : A → result B) : Return a ≫= k = k a.
Proof. reflexivity. Qed.

Lemma getitem_Some (d : gmap string string) (key v : string) :
  d !! key = Some v → getitem d key = Return v.
Proof. unfold getitem. by intros ->. Qed.

Lemma encrypt_data_Return `{AESGCM} self nonce now data payload :
  encrypt_data self nonce now data = Return payload →
  ∃ ciphertext,
    AESGCM_encrypt (encryption_key self) nonce data = Return ciphertext ∧
    payload = {[ "ciphertext" := b64encode ciphertext;
                 "nonce" := b64encode nonce;
                 "algorithm" := "AES-256-GCM";
                 "timestamp" := now ++ "Z" ]}.
Proof.
  unfold encrypt_data.
  destruct (AESGCM_encrypt _ _ _) as [ciphertext|e]; [|done].
  intros [= <-]. by exists ciphertext.
Qed.

(** The payload written by [encrypt_data] passes [verify_encryption]. *)
Lemma encrypt_data_verified `{AESGCM} self nonce now data payload :
  encrypt_data self nonce now data = Return payload →
  verify_encryption payload = true.
Proof. intros (ciphertext & _ & ->)%encrypt_data_Return. reflexivity. Qed.

(** C9.  On one transmitter, and so under one key: [encrypt_data] returns a
    payload whenever the cipher accepts the key, the nonce and the data, and
    [decrypt_data] applied to a payload returned by [encrypt_data(data)]
    returns [data]. *)
Theorem encrypt_decrypt_round_trip `{AESGCM} (self : SecureTransmitter)
    (nonce : list byte) (now : string) (data : list byte) :
  (∀ ciphertext,
     AESGCM_encrypt (encryption_key self) nonce data = Return ciphertext →
     ∃ payload, encrypt_data self nonce now data = Return payload) ∧
  (∀ payload,
     encrypt_data self nonce now data = Return payload →
     decrypt_data self payload = Return data).
Proof.
  split.
  - intros ciphertext Hc. unfold encrypt_data. rewrite Hc. by eexists.
  - intros payload (ciphertext & Hc & ->)%encrypt_data_Return.
    unfold decrypt_data.
    rewrite (getitem_Some _ "ciphertext" (b64encode ciphertext))
      by (by simplify_map_eq).
    rewrite (getitem_Some _ "nonce" (b64encode nonce)) by (by simplify_map_eq).
    repeat (rewrite bind_Return || rewrite b64decode_b64encode).
    by rewrite (AESGCM_decrypt_encrypt _ _ _ _ Hc).
Qed.

Lemma encrypt_decrypt_round_trip_witness :
  ∃ payload,
    @encrypt_data samples.clear_text samples.test_transmitter
      (encode "0123456789ab") "2024-01-01T00:00:00"
      (encode "Test assessment data") = Return payload ∧
    @decrypt_data samples.clear_text samples.test_transmitter payload
      = Return (encode "Test assessment data").
Proof.
  eexists. split; [vm_compute; reflexivity|].
  apply (proj2 (@encrypt_decrypt_round_trip samples.clear_text
                  samples.test_transmitter (encode "0123456789ab")
                  "2024-01-01T00:00:00" (encode "Test assessment data"))).
  vm_compute. reflexivity.
Defined.

End transmission_facts.

(** ** Runs of the tracker: what the calls keep and what they never do *)

Module tracker_runs.
Import tribal_data_tracker tracker_facts.

#[local] Instance same_identity_refl : Reflexive same_identity.
Proof. by intros r. Qed.

#[local] Instance same_identity_trans : Transitive same_identity.
Proof.
  intros r1 r2 r3 (? & ? & ? & ? & ? & ? & ?) (? & ? & ? & ? & ? & ? & ?).
  repeat split; congruence.
Qed.

#[local] Instance still_set_refl : Reflexive still_set.
Proof. by intros r. Qed.

#[local] Instance still_set_trans : Transitive still_set.
Proof. unfold still_set. intros r1 r2 r3 [? ?] [? ?]. split; auto. Qed.

Section runs.
Context `{Hashlib}.

(** A property of the objects that holds at birth and across each call holds
    after a run. *)
Lemma run_heap_Forall (P : DataTransmissionRecord → Prop) :
  (∀ r, born r → P r) →
  (∀ r r', record_step r r' → P r → P r') →
  ∀ cs w w', run w cs = Some w' → Forall P (heap w) → Forall P (heap w').
Proof.
  intros Hborn Hstep cs. induction cs as [|c cs IH]; intros w w'; cbn [run].
  - by intros [= <-].
  - destruct (step w c) as [w1|] eqn:Hc; [|done]. intros Hrun Hw.
    apply (IH _ _ Hrun).
    apply step_heap in Hc
      as [(l & r & r' & Hr & Hrr' & -> & _) | (r0 & Hr0 & -> & _)].
    + apply Forall_insert; [done|]. eapply Hstep; [done|].
      by eapply Forall_lookup_1.
    + apply Forall_app. split; [done|]. constructor; [by apply Hborn | done].
Qed.

(** A preorder on the states of an object that each call follows is followed
    by a run, and the object keeps its reference. *)
Lemma run_heap_rel (R : relation DataTransmissionRecord)
    `{!Reflexive R} `{!Transitive R} :
  (∀ r r', record_step r r' → R r r') →
  ∀ cs w w', run w cs = Some w' →
  ∀ l r, heap w !! l = Some r → ∃ r', heap w' !! l = Some r' ∧ R r r'.
Proof.
  intros Hstep cs. induction cs as [|c cs IH]; intros w w'; cbn [run].
  - intros [= <-] l r Hr. by exists r.
  - destruct (step w c) as [w1|] eqn:Hc; [|done]. intros Hrun l r Hr.
    assert (∃ r1, heap w1 !! l = Some r1 ∧ R r r1) as (r1 & Hr1 & HR1).
    { apply step_heap in Hc
        as [(l0 & r0 & r0' & Hr0 & Hrr' & -> & _) | (r0 & _ & -> & _)].
      - destruct (decide (l0 = l)) as [->|Hne].
        + exists r0'. rewrite list_lookup_insert_eq by by eapply lookup_lt_Some.
          split; [done|]. apply Hstep. congruence.
        + exists r. by rewrite list_lookup_insert_ne.
      - exists r. by rewrite lookup_app_l by by eapply lookup_lt_Some. }
    destruct (IH _ _ Hrun l r1 Hr1) as (r' & Hr' & HR').
    exists r'. split; [done|]. by etrans.
Qed.

Lemma record_step_same_identity (r r' : DataTransmissionRecord) :
  record_step r r' → same_identity r r'.
Proof.
  destruct 1; try done.
  destruct (validate_cases now r)
    as [(Hc & ->) | [(Hc & He & ->) | [(Hc & He & Hh & ->) | (Hc & He & Hh & ->)]]];
    done.
Qed.

Lemma record_step_still_set (r r' : DataTransmissionRecord) :
  record_step r r' → still_set r r'.
Proof.
  destruct 1; try done.
  destruct (validate_cases now r)
    as [(Hc & ->) | [(Hc & He & ->) | [(Hc & He & Hh & ->) | (Hc & He & Hh & ->)]]];
    done.
Qed.

Lemma constant_status (s : string) :
  In s statuses → s ∈ statuses.
Proof. apply list_elem_of_In. Qed.

Lemma record_step_status (r r' : DataTransmissionRecord) :
  record_step r r' → status r ∈ statuses → status r' ∈ statuses.
Proof.
  destruct 1; intros Hr; try done;
    try (apply constant_status; cbn; tauto).
  destruct (validate_cases now r)
    as [(Hc & ->) | [(Hc & He & ->) | [(Hc & He & Hh & ->) | (Hc & He & Hh & ->)]]];
    try done.
  apply constant_status. cbn. tauto.
Qed.

Lemma born_status (r : DataTransmissionRecord) :
  born r → status r = TransmissionStatus.PENDING.
Proof. by destruct 1. Qed.

Lemma born_protected (r : DataTransmissionRecord) :
  born r → tribal_ip_protected r = true.
Proof. by destruct 1. Qed.

(** What a call does to the tracker and to the files. *)
Lemma step_tracker_files (w w' : World) (c : Call) :
  step w c = Some w' →
  log_directory (tracker w') = log_directory (tracker w) ∧
  main_log_file (tracker w') = main_log_file (tracker w) ∧
  records (tracker w') =
    (records (tracker w) ++ (if is_create c then [length (heap w)] else []))%list ∧
  match c with
  | Log l now_log now_audit =>
      ∃ r, heap w !! l = Some r ∧
           files w' = (log_transmission (tracker w) now_log now_audit r (files w)).2
  | _ => files w' = files w
  end.
Proof.
  destruct c; cbn [step is_create]; intros Hstep;
    try (apply update_object_Some in Hstep as (r & _ & _ & -> & ->);
         by rewrite app_nil_r).
  - injection Hstep as <-. cbn. by rewrite app_nil_r.
  - unfold create_transmission_record in Hstep.
    by apply update_object_Some in Hstep as (r & _ & _ & -> & ->).
  - destruct (heap w !! l) as [r|] eqn:Hr; [|done].
    injection Hstep as <-. cbn. rewrite app_nil_r. repeat split. by exists r.
Qed.

End runs.

(** *** The statements *)

(** X1.  After any sequence of calls from a fresh tracker, the status of
    every object is one of the five constants of [TransmissionStatus] and
    its [tribal_ip_protected] is true. *)
Theorem status_always_known `{Hashlib} (dir : string) (cs : list Call)
    (w : World) :
  run (init_world dir) cs = Some w →
  ∀ l r, heap w !! l = Some r →
  status r ∈ statuses ∧ tribal_ip_protected r = true.
Proof.
  intros Hrun l r Hr.
  pose (P := λ r, status r ∈ statuses ∧ tribal_ip_protected r = true).
  assert (Forall P (heap w)) as Hall.
  { eapply (run_heap_Forall P); [| |done|constructor].
    - intros r0 Hr0. split; [|by apply born_protected].
      rewrite (born_status _ Hr0). apply constant_status. cbn. tauto.
    - intros r0 r1 Hstep [Hs Hp]. split; [by eapply record_step_status|].
      destruct (record_step_same_identity _ _ Hstep) as (_ & _ & _ & _ & _ & _ & Hsame).
      congruence. }
  by eapply (Forall_lookup_1 P).
Qed.

Lemma status_always_known_witness :
  ∃ w r,
    @run samples.fixed_digest (init_world "./logs") samples.tracker_test_calls
      = Some w ∧
    heap w !! 0 = Some r ∧
    status r ∈ statuses ∧ tribal_ip_protected r = true.
Proof.
  eexists _, _.
  split; [vm_compute; reflexivity|]. split; [vm_compute; reflexivity|].
  refine (@status_always_known samples.fixed_digest "./logs"
            samples.tracker_test_calls _ _ 0 _ _);
    vm_compute; reflexivity.
Defined.

(** X2.  No sequence of calls changes the identifier, the data type, the
    destination, the classification, the size, the creation time or the
    protection flag of an object. *)
Theorem identity_never_changes `{Hashlib} (cs : list Call) (w w' : World) :
  run w cs = Some w' →
  ∀ l r, heap w !! l = Some r →
  ∃ r', heap w' !! l = Some r' ∧ same_identity r r'.
Proof. apply run_heap_rel; [apply _..|]. apply record_step_same_identity. Qed.

Lemma identity_never_changes_witness :
  ∃ w',
    @run samples.fixed_digest samples.two_record_world
      (drop 5 samples.tracker_test_calls) = Some w' ∧
    ∃ r', heap w' !! 0 = Some r' ∧ same_identity samples.empty_method_record r'.
Proof.
  eexists. split; [vm_compute; reflexivity|].
  refine (@identity_never_changes samples.fixed_digest
            (drop 5 samples.tracker_test_calls) samples.two_record_world _ _ 0 _ _);
    vm_compute; reflexivity.
Defined.

(** X3.  No sequence of calls puts [None] back: a hash that is set stays
    set, an encryption method that is set stays set. *)
Theorem set_attributes_stay_set `{Hashlib} (cs : list Call) (w w' : World) :
  run w cs = Some w' →
  ∀ l r, heap w !! l = Some r →
  ∃ r', heap w' !! l = Some r' ∧ still_set r r'.
Proof. apply run_heap_rel; [apply _..|]. apply record_step_still_set. Qed.

Lemma set_attributes_stay_set_witness :
  ∃ w',
    @run samples.fixed_digest samples.two_record_world
      (drop 5 samples.tracker_test_calls) = Some w' ∧
    ∃ r', heap w' !! 0 = Some r' ∧ still_set samples.empty_method_record r'.
Proof.
  eexists. split; [vm_compute; reflexivity|].
  refine (@set_attributes_stay_set samples.fixed_digest
            (drop 5 samples.tracker_test_calls) samples.two_record_world _ _ 0 _ _);
    vm_compute; reflexivity.
Defined.

(** *** The gate, again and on a fresh record *)

Lemma truthy_Some (s : string) : s ≠ "" → truthy (Some s) = true.
Proof. by destruct s. Qed.

(** X4.  The verdict of the gate repeats: a second validation returns what
    the first returned and leaves the status the first left; the trail has
    gained two entries with the same action and the same details. *)
Theorem validation_verdict_repeats (now now' : string)
    (r : DataTransmissionRecord) :
  (validate_transmission now' (validate_transmission now r).2).1
    = (validate_transmission now r).1 ∧
  status (validate_transmission now' (validate_transmission now r).2).2
    = status (validate_transmission now r).2 ∧
  ∃ e e', audit_trail (validate_transmission now' (validate_transmission now r).2).2
            = (audit_trail r ++ [e; e'])%list ∧
          action e' = action e ∧ details e' = details e.
Proof.
  destruct (validate_cases now r)
    as [(Hc & ->) | [(Hc & He & ->) | [(Hc & He & Hh & ->) | (Hc & He & Hh & ->)]]];
    cbn [fst snd].
  - rewrite validate_sovereign by done. cbn. repeat split.
    eexists _, _. by rewrite <- app_assoc.
  - rewrite validate_no_method by done. cbn. repeat split.
    eexists _, _. by rewrite <- app_assoc.
  - rewrite validate_no_hash by done. cbn. repeat split.
    eexists _, _. by rewrite <- app_assoc.
  - rewrite validate_pass by done. cbn. repeat split.
    eexists _, _. by rewrite <- app_assoc.
Qed.

(** X5.  A record validated right after its construction, by the constructor
    or by [create_transmission_record], is refused and stays PENDING: as
    TRIBAL_SOVEREIGN data if that is its classification, for its missing
    encryption method otherwise. *)
Theorem fresh_record_is_refused `{Hashlib} (now : string)
    (r : DataTransmissionRecord) :
  born r →
  (validate_transmission now r).1 = false ∧
  status (validate_transmission now r).2 = TransmissionStatus.PENDING ∧
  ∃ e, last (audit_trail (validate_transmission now r).2) = Some e ∧
       action e = "VALIDATION_FAILED" ∧
       details e =
         if decide (classification r = DataClassification.TRIBAL_SOVEREIGN)
         then "TRIBAL_SOVEREIGN data cannot leave network"
         else "No encryption method specified".
Proof.
  intros Hr. pose proof (born_status r Hr) as Hs.
  assert (truthy (encryption_method r) = false) as He by by destruct Hr.
  case_decide as Hc.
  - rewrite validate_sovereign by done. cbn. repeat split; [done|].
    eexists. by rewrite last_snoc.
  - rewrite validate_no_method by done. cbn. repeat split; [done|].
    eexists. by rewrite last_snoc.
Qed.

Lemma fresh_record_is_refused_witness :
  ∃ r,
    @born samples.fixed_digest r ∧
    (validate_transmission "2024-01-01T00:00:01" r).1 = false ∧
    status (validate_transmission "2024-01-01T00:00:01" r).2
      = TransmissionStatus.PENDING.
Proof.
  exists (@DataTransmissionRecord_init samples.fixed_digest "2024-01-01T00:00:00"
            "a1b2c3d4e5f60708" "2024-01-01T00:00:00" "assessment_results" "CISA"
            DataClassification.SENSITIVE 1024).
  assert (@born samples.fixed_digest
            (@DataTransmissionRecord_init samples.fixed_digest "2024-01-01T00:00:00"
               "a1b2c3d4e5f60708" "2024-01-01T00:00:00" "assessment_results" "CISA"
               DataClassification.SENSITIVE 1024)) as Hb by constructor.
  split; [exact Hb|].
  destruct (@fresh_record_is_refused samples.fixed_digest "2024-01-01T00:00:01" _ Hb)
    as (Hv & Hs & _).
  split; [exact Hv | exact Hs].
Defined.

(** X6.  For a classification other than TRIBAL_SOVEREIGN, a non-empty
    method and data with a non-empty digest, the gate passes whichever of
    [set_data_hash] and [set_encryption] was called first. *)
Theorem hash_and_method_in_any_order `{Hashlib} (now_hash now_method now : string)
    (data : list byte) (method : string) (r : DataTransmissionRecord) :
  classification r ≠ DataClassification.TRIBAL_SOVEREIGN →
  method ≠ "" →
  sha256_hexdigest data ≠ "" →
  (validate_transmission now
     (set_encryption now_method method (set_data_hash now_hash data r))).1 = true ∧
  (validate_transmission now
     (set_data_hash now_hash data (set_encryption now_method method r))).1 = true.
Proof.
  intros Hc Hm Hd. split; rewrite validate_pass; try done;
    cbn; by apply truthy_Some.
Qed.

Lemma hash_and_method_in_any_order_witness :
  (validate_transmission "2024-01-01T00:00:03"
     (set_encryption "2024-01-01T00:00:02" "AES-256-GCM"
        (@set_data_hash samples.fixed_digest "2024-01-01T00:00:01"
           (encode "test data") samples.empty_method_record))).1 = true ∧
  (validate_transmission "2024-01-01T00:00:03"
     (@set_data_hash samples.fixed_digest "2024-01-01T00:00:01"
        (encode "test data")
        (set_encryption "2024-01-01T00:00:02" "AES-256-GCM"
           samples.empty_method_record))).1 = true.
Proof.
  apply (@hash_and_method_in_any_order samples.fixed_digest); vm_compute; discriminate.
Defined.

(** X29.  The sequence of calls of the example at the end of the module and
    of the main script, on a record that is not TRIBAL_SOVEREIGN, with a
    non-empty method and data with a non-empty digest: the validation passes,
    the record ends LOGGED, its audit trail has exactly the six actions
    CREATED, DATA_HASHED, ENCRYPTED, VALIDATION_PASSED, TRANSMITTED, LOGGED in
    this order, and the line added to the main log shows the status
    TRANSMITTED. *)
Theorem standard_lifecycle `{Hashlib} (self : TribalDataTracker)
    (now_id random_hex now now_created now_hash now_method now_validate
       now_sent now_log now_logged : string)
    (data_type destination classification method : string) (size : Z)
    (data : list byte) (fs : Files) :
  classification ≠ DataClassification.TRIBAL_SOVEREIGN →
  method ≠ "" →
  sha256_hexdigest data ≠ "" →
  let created :=
    add_audit_entry now_created "CREATED" "Transmission record created"
      (DataTransmissionRecord_init now_id random_hex now data_type destination
         classification size) in
  let prepared :=
    set_encryption now_method method (set_data_hash now_hash data created) in
  let validated := validate_transmission now_validate prepared in
  let logged :=
    log_transmission self now_log now_logged
      (mark_transmitted now_sent validated.2) fs in
  validated.1 = true ∧
  status logged.1 = TransmissionStatus.LOGGED ∧
  action <$> audit_trail logged.1 =
    ["CREATED"; "DATA_HASHED"; "ENCRYPTED"; "VALIDATION_PASSED"; "TRANSMITTED";
     "LOGGED"] ∧
  (status ∘ log_record)
    <$> last (default [] (appended logged.2 !! main_log_file self))
    = Some TransmissionStatus.TRANSMITTED.
Proof.
  intros Hc Hm Hd created prepared validated logged.
  assert (validated =
          (true, assign_status TransmissionStatus.APPROVED
                   (add_audit_entry now_validate "VALIDATION_PASSED"
                      "All validation checks passed" prepared))) as Hv.
  { subst validated. apply validate_pass; [done | | ]; cbn; by apply truthy_Some. }
  subst logged. rewrite Hv. cbn [fst snd]. split; [done|]. split; [done|].
  split; [done|].
  rewrite (proj1 (log_transmission_files _ _ _ _ _)). cbn [from_option id].
  by rewrite last_snoc.
Qed.

Lemma standard_lifecycle_witness :
  (validate_transmission "2024-01-01T00:00:03"
     (set_encryption "2024-01-01T00:00:02" "AES-256-GCM"
        (@set_data_hash samples.fixed_digest "2024-01-01T00:00:01"
           (encode "test data")
           (add_audit_entry "2024-01-01T00:00:00" "CREATED"
              "Transmission record created"
              (@DataTransmissionRecord_init samples.fixed_digest
                 "2024-01-01T00:00:00" "a1b2c3d4e5f60708" "2024-01-01T00:00:00"
                 "assessment_results" "CISA" DataClassification.SENSITIVE
                 1024))))).1 = true.
Proof.
  apply (@standard_lifecycle samples.fixed_digest
           (TribalDataTracker_init "./logs")
           "2024-01-01T00:00:00" "a1b2c3d4e5f60708" "2024-01-01T00:00:00"
           "2024-01-01T00:00:00" "2024-01-01T00:00:01" "2024-01-01T00:00:02"
           "2024-01-01T00:00:03" "2024-01-01T00:00:04" "2024-01-01T00:00:05"
           "2024-01-01T00:00:06" "assessment_results" "CISA"
           DataClassification.SENSITIVE "AES-256-GCM" 1024 (encode "test data")
           {| appended := ∅; written := ∅ |});
    vm_compute; discriminate.
Defined.

(** *** The files *)

Lemma main_log_append (self : TribalDataTracker) (now_log now_audit : string)
    (r : DataTransmissionRecord) (fs : Files) :
  default [] (appended (log_transmission self now_log now_audit r fs).2
                !! main_log_file self)
  = (default [] (appended fs !! main_log_file self)
       ++ [{| log_timestamp := now_log ++ "Z"; log_record := r |}])%list.
Proof. cbn. by rewrite lookup_insert_eq. Qed.

(** X7.  What [log_transmission] persists is the record as it was when the
    call was made: the line added at the end of the main log and the record
    file both hold the status and the audit trail from before the call, while
    the object itself ends LOGGED with one more entry. *)
Theorem logged_snapshot_is_the_state_before `{Hashlib} (w w' : World) (l : nat)
    (now_log now_audit : string) (r : DataTransmissionRecord) :
  step w (Log l now_log now_audit) = Some w' →
  heap w !! l = Some r →
  main_log w' = (main_log w
                   ++ [{| log_timestamp := now_log ++ "Z"; log_record := r |}])%list ∧
  written (files w')
    !! path_join (log_directory (tracker w))
         ("transmission_" ++ record_id r ++ ".json") = Some r ∧
  ∃ r', heap w' !! l = Some r' ∧
        status r' = TransmissionStatus.LOGGED ∧
        audit_trail r' =
          (audit_trail r
             ++ [entry now_audit "LOGGED"
                   ("Record logged to " ++ main_log_file (tracker w))])%list.
Proof.
  intros Hstep Hr.
  destruct (step_tracker_files _ _ _ Hstep) as (_ & Hfile & _ & r0 & Hr0 & Hfiles).
  assert (r0 = r) as -> by congruence.
  split; [unfold main_log; rewrite Hfile, Hfiles; apply main_log_append|].
  split; [rewrite Hfiles; apply log_transmission_files|].
  cbn [step] in Hstep. rewrite Hr in Hstep. injection Hstep as <-.
  eexists. cbn [heap]. rewrite list_lookup_insert_eq by by eapply lookup_lt_Some.
  by split.
Qed.

Lemma logged_snapshot_is_the_state_before_witness :
  ∃ w',
    @step samples.fixed_digest samples.two_record_world
      (Log 1 "2024-01-01T00:00:09" "2024-01-01T00:00:10") = Some w' ∧
    main_log w' =
      (main_log samples.two_record_world
         ++ [{| log_timestamp := "2024-01-01T00:00:09" ++ "Z";
                log_record := samples.sovereign_record |}])%list ∧
    written (files w')
      !! path_join (log_directory (tracker samples.two_record_world))
           ("transmission_" ++ record_id samples.sovereign_record ++ ".json")
      = Some samples.sovereign_record ∧
    ∃ r', heap w' !! 1 = Some r' ∧
          status r' = TransmissionStatus.LOGGED ∧
          audit_trail r' =
            (audit_trail samples.sovereign_record
               ++ [entry "2024-01-01T00:00:10" "LOGGED"
                     ("Record logged to "
                        ++ main_log_file (tracker samples.two_record_world))])%list.
Proof.
  eexists. split; [vm_compute; reflexivity|].
  apply (@logged_snapshot_is_the_state_before samples.fixed_digest
           samples.two_record_world _ 1 "2024-01-01T00:00:09"
           "2024-01-01T00:00:10" samples.sovereign_record);
    vm_compute; reflexivity.
Defined.

Lemma step_main_log `{Hashlib} (w w' : World) (c : Call) :
  step w c = Some w' →
  ∃ new, main_log w' = (main_log w ++ new)%list ∧
         length new = (if is_log c then 1 else 0).
Proof.
  intros Hstep.
  destruct (step_tracker_files _ _ _ Hstep) as (_ & Hfile & _ & Hfiles).
  unfold main_log. rewrite Hfile.
  destruct c; try (exists []; rewrite Hfiles, app_nil_r; done).
  destruct Hfiles as (r & _ & ->). rewrite main_log_append. by eexists.
Qed.

(** X8.  The main log is append-only and grows by exactly one line per call
    to [log_transmission]: after a run, its lines are the lines it had,
    followed by as many new lines as the run has such calls. *)
Theorem main_log_grows_by_log_calls `{Hashlib} (cs : list Call) (w w' : World) :
  run w cs = Some w' →
  ∃ new, main_log w' = (main_log w ++ new)%list ∧
         length new = length (filter (λ c, is_log c = true) cs).
Proof.
  revert w. induction cs as [|c cs IH]; intros w; cbn [run].
  - intros [= <-]. exists []. by rewrite app_nil_r.
  - destruct (step w c) as [w1|] eqn:Hc; [|done]. intros Hrun.
    destruct (step_main_log _ _ _ Hc) as (new1 & Hnew1 & Hlen1).
    destruct (IH _ Hrun) as (new & Hnew & Hlen).
    exists (new1 ++ new)%list. split.
    + by rewrite Hnew, Hnew1, app_assoc.
    + rewrite length_app, Hlen1, Hlen, filter_cons.
      destruct (is_log c); by case_decide.
Qed.

Lemma main_log_grows_by_log_calls_witness :
  ∃ w',
    @run samples.fixed_digest (init_world "./logs") samples.tracker_test_calls
      = Some w' ∧
    ∃ new, main_log w' = (main_log (init_world "./logs") ++ new)%list ∧
           length new = 1.
Proof.
  eexists. split; [vm_compute; reflexivity|].
  apply (@main_log_grows_by_log_calls samples.fixed_digest
           samples.tracker_test_calls (init_world "./logs")).
  vm_compute. reflexivity.
Defined.

(** X9.  The tracker holds one reference per call to
    [create_transmission_record]: after a run, [records] has grown by the
    number of such calls, so that from a fresh tracker
    [total_transmissions] is that number; a record built by its constructor
    alone is not counted. *)
Theorem tracker_counts_created_records `{Hashlib} (cs : list Call) (w w' : World) :
  run w cs = Some w' →
  total_transmissions (get_transmission_summary w') =
  total_transmissions (get_transmission_summary w)
    + length (filter (λ c, is_create c = true) cs).
Proof.
  assert (∀ w, total_transmissions (get_transmission_summary w)
               = length (records (tracker w))) as Htotal.
  { intros w0. unfold get_transmission_summary. by destruct (foldl _ _ _) as [[? ?] ?]. }
  rewrite !Htotal. clear Htotal.
  revert w. induction cs as [|c cs IH]; intros w; cbn [run].
  - intros [= <-]. cbn. lia.
  - destruct (step w c) as [w1|] eqn:Hc; [|done]. intros Hrun.
    destruct (step_tracker_files _ _ _ Hc) as (_ & _ & Hrec & _).
    rewrite (IH _ Hrun), Hrec, length_app, filter_cons.
    destruct (is_create c); case_decide; try done; cbn [length]; lia.
Qed.

Lemma tracker_counts_created_records_witness :
  ∃ w',
    @run samples.fixed_digest (init_world "./logs") samples.tracker_test_calls
      = Some w' ∧
    total_transmissions (get_transmission_summary w') = 2.
Proof.
  eexists. split; [vm_compute; reflexivity|].
  rewrite (@tracker_counts_created_records samples.fixed_digest
             samples.tracker_test_calls (init_world "./logs"));
    vm_compute; reflexivity.
Defined.

(** *** The summary, the selection by destination and the export *)

Lemma positive_lookup (m : gmap string nat) (k : string) (n : nat) :
  positive m → default 0 (m !! k) = n →
  m !! k = if decide (n = 0) then None else Some n.
Proof.
  intros Hm Hn. destruct (m !! k) as [x|] eqn:Hk; cbn in Hn; subst n.
  - apply Hm in Hk. cbn in Hk. rewrite decide_False by lia. done.
  - by rewrite decide_True.
Qed.

Lemma foldl_count_record_exact (rs : list DataTransmissionRecord)
    (s c d : gmap string nat) (k : string) :
  foldl count_record (∅, ∅, ∅) rs = (s, c, d) →
  s !! k = (if decide (count_key status k rs = 0) then None
            else Some (count_key status k rs)) ∧
  c !! k = (if decide (count_key classification k rs = 0) then None
            else Some (count_key classification k rs)) ∧
  d !! k = (if decide (count_key destination k rs = 0) then None
            else Some (count_key destination k rs)).
Proof.
  intros Hfold. unfold count_key.
  pose proof (foldl_count_record _ _ _ _ _ _ _ Hfold) as (_ & Ps & Pc & Pd).
  apply (foldl_count_record_lookup _ _ _ _ _ _ _ k) in Hfold as (Hs & Hc & Hd).
  rewrite lookup_empty in Hs, Hc, Hd. cbn in Hs, Hc, Hd.
  split; [|split]; apply positive_lookup; try done;
    (apply Ps || apply Pc || apply Pd); apply map_Forall_empty.
Qed.

(** X10.  Each breakdown of the summary has, under a key, the number of
    records of the tracker with that status, classification or destination,
    and has no entry for a key that no record has. *)
Theorem breakdowns_count_exactly (w : World) (k : string) :
  status_breakdown (get_transmission_summary w) !! k =
    (if decide (count_key status k (tracked w) = 0) then None
     else Some (count_key status k (tracked w))) ∧
  classification_breakdown (get_transmission_summary w) !! k =
    (if decide (count_key classification k (tracked w) = 0) then None
     else Some (count_key classification k (tracked w))) ∧
  destination_breakdown (get_transmission_summary w) !! k =
    (if decide (count_key destination k (tracked w) = 0) then None
     else Some (count_key destination k (tracked w))).
Proof.
  unfold get_transmission_summary.
  destruct (foldl count_record (∅, ∅, ∅) (tracked w)) as [[s c] d] eqn:Hfold.
  by apply foldl_count_record_exact.
Qed.

(** X11.  [get_records_by_destination] returns the records of the tracker
    with that destination, in the order of the tracker, and as many of them
    as the destination breakdown of the summary counts; for a destination
    that the breakdown does not have it returns the empty list. *)
Theorem records_by_destination_agree (w : World) (d : string) :
  get_records_by_destination d w `sublist_of` tracked w ∧
  (∀ r, r ∈ get_records_by_destination d w ↔ r ∈ tracked w ∧ destination r = d) ∧
  length (get_records_by_destination d w) =
    default 0 (destination_breakdown (get_transmission_summary w) !! d) ∧
  (destination_breakdown (get_transmission_summary w) !! d = None →
   get_records_by_destination d w = []).
Proof.
  assert (destination_breakdown (get_transmission_summary w) !! d =
            if decide (count_key destination d (tracked w) = 0) then None
            else Some (count_key destination d (tracked w))) as Hd.
  { unfold get_transmission_summary.
    destruct (foldl count_record (∅, ∅, ∅) (tracked w)) as [[s c] d'] eqn:Hfold.
    by apply (foldl_count_record_exact _ _ _ _ d) in Hfold as (_ & _ & ?). }
  unfold get_records_by_destination, count_key in *.
  split; [apply sublist_filter|]. split.
  { intros r. rewrite list_elem_of_filter. tauto. }
  rewrite Hd. split.
  - case_decide as Hz; cbn; [by rewrite Hz | done].
  - case_decide as Hz; [|done]. intros _. by apply nil_length_inv.
Qed.

(** X12.  What [export_audit_log] writes is consistent: its records are the
    records of the tracker, in order, and, when every reference of the
    tracker denotes an object, its summary counts exactly these records and
    its status breakdown adds up to their number. *)
Theorem export_is_consistent (now : string) (w : World) :
  world_ok w →
  export_records (export_audit_log now w) = tracked w ∧
  total_transmissions (export_summary (export_audit_log now w))
    = length (export_records (export_audit_log now w)) ∧
  sum_counts (status_breakdown (export_summary (export_audit_log now w)))
    = length (export_records (export_audit_log now w)).
Proof.
  intros Hw. cbn [export_audit_log export_records export_summary].
  unfold to_dict. rewrite list_fmap_id.
  split; [done|].
  assert (total_transmissions (get_transmission_summary w) = length (tracked w))
    as Htotal.
  { rewrite tracked_length by done. unfold get_transmission_summary.
    by destruct (foldl _ _ _) as [[? ?] ?]. }
  split; [done|]. rewrite <- Htotal.
  unfold get_transmission_summary.
  destruct (foldl count_record (∅, ∅, ∅) (tracked w)) as [[s c] d] eqn:Hfold.
  apply foldl_count_record in Hfold as ((Hs & _ & _) & _).
  cbn. rewrite Hs, sum_counts_empty, tracked_length by done. done.
Qed.

Lemma export_is_consistent_witness :
  export_records (export_audit_log "2024-01-01T00:00:11" samples.two_record_world)
    = tracked samples.two_record_world ∧
  total_transmissions
    (export_summary (export_audit_log "2024-01-01T00:00:11" samples.two_record_world))
    = length (export_records
                (export_audit_log "2024-01-01T00:00:11" samples.two_record_world)) ∧
  sum_counts
    (status_breakdown
       (export_summary (export_audit_log "2024-01-01T00:00:11" samples.two_record_world)))
    = length (export_records
                (export_audit_log "2024-01-01T00:00:11" samples.two_record_world)).
Proof.
  apply export_is_consistent.
  apply (bool_decide_unpack _). vm_compute. exact I.
Defined.

End tracker_runs.

(** ** The views of an assessment and the system of assessments *)

Module assessment_views.
Import assessment_system assessment_facts.

Lemma shareable_level_spec (level : ProtectionLevel) (f : Finding) :
  f !! "protection_level" = Some (ProtectionLevel_value level) →
  is_shareable f ↔ shareable_level level = true.
Proof.
  intros Hf. rewrite (is_shareable_level f _ Hf).
  destruct level; cbn; intuition discriminate.
Qed.

Lemma count_severity_filter (P : Finding → Prop) `{∀ f, Decision (P f)}
    (b : string) (fs : list Finding) :
  (count_severity b (filter P fs) ≤ count_severity b fs)%nat.
Proof.
  unfold count_severity. induction fs as [|f fs IH]; [done|].
  rewrite !filter_cons. repeat case_decide; rewrite ?filter_cons;
    repeat case_decide; cbn [length]; try lia; done.
Qed.

Lemma summary_lookup_default (fs : list Finding) (b : string) :
  default 0 (_calculate_severity_summary fs !! b) =
  if decide (b ∈ buckets) then count_severity b fs else 0.
Proof.
  destruct (severity_summary_spec fs) as (Hin & Hout & _).
  case_decide as Hb; [by rewrite Hin | by rewrite Hout].
Qed.

(** The summary is the map that gives each bucket its count. *)
Lemma summary_ext (fs fs' : list Finding) :
  (∀ b, b ∈ buckets → count_severity b fs = count_severity b fs') →
  _calculate_severity_summary fs = _calculate_severity_summary fs'.
Proof.
  intros Hcount. apply map_eq. intros b.
  destruct (severity_summary_spec fs) as (Hin & Hout & _).
  destruct (severity_summary_spec fs') as (Hin' & Hout' & _).
  destruct (decide (b ∈ buckets)) as [Hb|Hb].
  - by rewrite Hin, Hin', Hcount.
  - by rewrite Hout, Hout'.
Qed.

Lemma lower_char_idemp (c : ascii) : lower_char (lower_char c) = lower_char c.
Proof.
  destruct c as [[] [] [] [] [] [] [] []]; reflexivity.
Qed.

Lemma lower_idemp (s : string) : lower (lower s) = lower s.
Proof. induction s as [|c s IH]; cbn; [done|]. by rewrite lower_char_idemp, IH. Qed.

Lemma severity_of_lower_severity (f : Finding) :
  severity_of (lower_severity f) = severity_of f.
Proof.
  unfold severity_of, lower_severity.
  destruct (f !! "severity") as [s|] eqn:Hs.
  - rewrite lookup_insert_eq. cbn. apply lower_idemp.
  - by rewrite Hs.
Qed.

(** The finding that [add_finding] appends, and what the filter makes of
    it. *)
Lemma add_finding_filter `{Hashlib} (now : string)
    (finding_type severity description : string) (level : ProtectionLevel)
    (a : Assessment) :
  ∃ f,
    findings (add_finding now finding_type severity description level a)
      = (findings a ++ [f])%list ∧
    f !! "protection_level" = Some (ProtectionLevel_value level) ∧
    filter is_shareable (findings a ++ [f])%list =
      (filter is_shareable (findings a)
         ++ (if shareable_level level then [f] else []))%list.
Proof.
  eexists. split; [reflexivity|].
  assert (∀ f : Finding,
            f !! "protection_level" = Some (ProtectionLevel_value level) →
            filter is_shareable (findings a ++ [f])%list =
              (filter is_shareable (findings a)
                 ++ (if shareable_level level then [f] else []))%list) as Hfilter.
  { intros f Hf. rewrite filter_app, filter_cons, filter_nil.
    pose proof (shareable_level_spec level f Hf) as Hsh.
    destruct (shareable_level level); case_decide as Hd; try done.
    - exfalso. apply Hd, Hsh. done.
    - exfalso. apply Hsh in Hd. done. }
  assert (({[ "finding_id" :=
                take_str 12 (sha256_hexdigest
                  (encode (assessment_id a ++ pretty (length (findings a)))));
              "type" := finding_type;
              "severity" := severity;
              "description" := description;
              "protection_level" := ProtectionLevel_value level;
              "timestamp" := now ++ "Z" ]} : Finding) !! "protection_level"
          = Some (ProtectionLevel_value level)) as Hlv by (by simplify_map_eq).
  split; [exact Hlv | by apply Hfilter].
Qed.

(** X13.  Adding a finding extends the shareable view by this finding when
    its protection level is PUBLIC or SENSITIVE and leaves the findings of
    the view and their count as they were when it is CONFIDENTIAL or
    TRIBAL_SOVEREIGN. *)
Theorem add_finding_extends_shareable_view `{Hashlib} (now : string)
    (finding_type severity description : string) (level : ProtectionLevel)
    (a : Assessment) :
  labelled (findings a) →
  ∃ res res' f,
    get_shareable_results a = Some res ∧
    get_shareable_results
      (add_finding now finding_type severity description level a) = Some res' ∧
    findings (add_finding now finding_type severity description level a)
      = (findings a ++ [f])%list ∧
    f !! "protection_level" = Some (ProtectionLevel_value level) ∧
    res_findings res' =
      (res_findings res ++ (if shareable_level level then [f] else []))%list ∧
    res_findings_count res' =
      res_findings_count res + (if shareable_level level then 1 else 0).
Proof.
  intros Ha.
  pose proof (add_finding_labelled now finding_type severity description level a Ha)
    as Ha'.
  unfold get_shareable_results.
  rewrite (shareable_findings_filter _ Ha), (shareable_findings_filter _ Ha').
  cbn [add_finding findings] in *.
  apply Forall_app in Ha' as [_ [[lv Hlv] _]%Forall_cons].
  assert (lv = ProtectionLevel_value level) as -> by (by simplify_map_eq).
  eexists _, _, _. split; [done|]. split; [done|]. split; [done|].
  split; [exact Hlv|]. cbn [res_findings res_findings_count].
  rewrite filter_app, length_app, filter_cons, filter_nil.
  pose proof (shareable_level_spec level _ Hlv) as Hsh.
  destruct (shareable_level level); case_decide as Hd;
    rewrite ?app_nil_r, ?Nat.add_0_r; try done.
  - exfalso. apply Hd, Hsh. done.
  - exfalso. apply Hsh in Hd. done.
Qed.

Lemma add_finding_extends_shareable_view_witness :
  ∃ res res',
    get_shareable_results samples.mixed_assessment = Some res ∧
    get_shareable_results
      (@add_finding samples.fixed_digest "2024-01-01T00:00:05" "contracts" "high"
         "Confidential information" CONFIDENTIAL samples.mixed_assessment)
      = Some res' ∧
    res_findings res' = res_findings res ∧
    res_findings_count res' = res_findings_count res.
Proof.
  destruct (@add_finding_extends_shareable_view samples.fixed_digest
              "2024-01-01T00:00:05" "contracts" "high" "Confidential information"
              CONFIDENTIAL samples.mixed_assessment)
    as (res & res' & f & Hres & Hres' & _ & _ & Hfs & Hcount).
  { apply (bool_decide_unpack _). vm_compute. exact I. }
  exists res, res'. cbn in Hfs, Hcount.
  rewrite app_nil_r in Hfs. rewrite Nat.add_0_r in Hcount. done.
Defined.

(** X14.  The full view never raises and counts every finding; the
    shareable view, when it returns, is a part of it: its findings are a
    sublist of the full findings, its count is at most the full count and
    each of its severity buckets is at most the bucket of the full view. *)
Theorem shareable_view_within_full_view (a : Assessment) (res : ShareableResults) :
  get_shareable_results a = Some res →
  full_findings_count (get_full_results a) = length (findings a) ∧
  res_findings res `sublist_of` full_findings (get_full_results a) ∧
  (res_findings_count res ≤ full_findings_count (get_full_results a))%nat ∧
  ∀ b, (default 0 (res_severity_summary res !! b)
        ≤ default 0 (full_severity_summary (get_full_results a) !! b))%nat.
Proof.
  unfold get_shareable_results.
  destruct (decide (labelled (findings a))) as [Ha|Ha].
  2: { by rewrite (shareable_findings_raises _ Ha). }
  rewrite (shareable_findings_filter _ Ha). intros [= <-]. cbn.
  split; [done|]. split; [apply sublist_filter|]. split; [apply length_filter|].
  intros b. rewrite !summary_lookup_default.
  case_decide; [apply count_severity_filter | done].
Qed.

Lemma shareable_view_within_full_view_witness :
  ∃ res,
    get_shareable_results samples.mixed_assessment = Some res ∧
    full_findings_count (get_full_results samples.mixed_assessment) = 4 ∧
    (res_findings_count res
     ≤ full_findings_count (get_full_results samples.mixed_assessment))%nat.
Proof.
  assert (labelled (findings samples.mixed_assessment)) as Hl.
  { apply (bool_decide_unpack _). vm_compute. exact I. }
  assert (∃ res, get_shareable_results samples.mixed_assessment = Some res)
    as [res Hres].
  { unfold get_shareable_results.
    rewrite (shareable_findings_filter _ Hl). by eexists. }
  exists res. split; [exact Hres|].
  destruct (shareable_view_within_full_view samples.mixed_assessment res Hres)
    as (Hfull & _ & Hle & _).
  split; [exact Hfull | exact Hle].
Defined.

(** X15.  The severity summary does not depend on the order of the
    findings. *)
Theorem severity_summary_ignores_order (fs fs' : list Finding) :
  fs ≡ₚ fs' →
  _calculate_severity_summary fs = _calculate_severity_summary fs'.
Proof.
  intros Hperm. apply summary_ext. intros b _. unfold count_severity.
  by rewrite Hperm.
Qed.

Lemma severity_summary_ignores_order_witness :
  _calculate_severity_summary (findings samples.mixed_assessment) =
  _calculate_severity_summary (reverse (findings samples.mixed_assessment)).
Proof.
  apply severity_summary_ignores_order. symmetry. apply reverse_Permutation.
Defined.

(** X16.  The severity summary does not depend on the letter case of the
    severities: "HIGH", "High" and "high" are counted in the same bucket. *)
Theorem severity_summary_ignores_case (fs : list Finding) :
  _calculate_severity_summary (lower_severity <$> fs) =
  _calculate_severity_summary fs.
Proof.
  apply summary_ext. intros b _. unfold count_severity.
  induction fs as [|f fs IH]; [done|].
  rewrite fmap_cons, !filter_cons, severity_of_lower_severity.
  case_decide; cbn [length]; by rewrite IH.
Qed.

(** *** The system of assessments *)

Lemma get_assessment_app (id : string) (self : AssessmentSystem) (a : Assessment) :
  get_assessment id (self ++ [a]) =
  match get_assessment id self with
  | Some found => Some found
  | None => if String.eqb (assessment_id a) id then Some a else None
  end.
Proof.
  induction self as [|a0 self IH]; cbn; [done|].
  by destruct (String.eqb (assessment_id a0) id).
Qed.

Lemma update_last_snoc (self : AssessmentSystem) (a a' : Assessment) :
  update_last a' (self ++ [a]) = (self ++ [a'])%list.
Proof.
  unfold update_last. rewrite length_app. cbn [length].
  replace (pred (length self + 1)) with (length self) by lia.
  rewrite insert_app_r_alt by done. by rewrite Nat.sub_diag.
Qed.

(** X17.  [get_assessment] returns the first assessment of the system with
    the given id, and [None] exactly when no assessment has it. *)
Theorem get_assessment_first_match (id : string) (self : AssessmentSystem) :
  match get_assessment id self with
  | Some a =>
      ∃ i, self !! i = Some a ∧ assessment_id a = id ∧
           ∀ j a', (j < i)%nat → self !! j = Some a' → assessment_id a' ≠ id
  | None => ∀ a, a ∈ self → assessment_id a ≠ id
  end.
Proof.
  induction self as [|a0 self IH]; cbn [get_assessment].
  - intros a Ha. by apply elem_of_nil in Ha.
  - destruct (String.eqb (assessment_id a0) id) eqn:E.
    + apply String.eqb_eq in E. exists 0. split; [done|]. split; [done|].
      intros j a' Hj. lia.
    + apply String.eqb_neq in E. destruct (get_assessment id self) as [a|].
      * destruct IH as (i & Hi & Hid & Hfirst). exists (S i).
        split; [done|]. split; [done|].
        intros [|j] a' Hj; cbn; [by intros [= <-]|]. apply Hfirst. lia.
      * intros a [->|Ha]%elem_of_cons; [done | by apply IH].
Qed.

(** X18.  A newly created assessment is found by its id unless an older
    assessment of the system has the same id, in which case the older one is
    returned; and the id depends on the clock reading alone, so that two
    assessments created at the same reading do have the same id. *)
Theorem created_assessment_found_unless_id_taken `{Hashlib}
    (now_id now : string) (ty : AssessmentType) (name : string)
    (self : AssessmentSystem) :
  get_assessment (assessment_id (create_assessment now_id now ty name self).1)
    (create_assessment now_id now ty name self).2
  = Some (default (create_assessment now_id now ty name self).1
            (get_assessment
               (assessment_id (create_assessment now_id now ty name self).1) self)) ∧
  ∀ now' ty' name' self',
    assessment_id (create_assessment now_id now' ty' name' self').1
    = assessment_id (create_assessment now_id now ty name self).1.
Proof.
  split; [|done]. cbn [create_assessment fst snd].
  rewrite get_assessment_app.
  destruct (get_assessment _ self); [done|]. by rewrite String.eqb_refl.
Qed.

(** X19.  Whatever the clock and the system it is run on,
    [run_security_assessment] yields an assessment with three findings of
    which the shareable view returns the first two, the sovereign finding
    being withheld, and [run_infrastructure_assessment] one with two findings
    which are both returned; in both cases the system ends with that
    assessment, findings included, as its last element. *)
Theorem built_in_assessments `{Hashlib} (now_id now now1 now2 now3 : string)
    (self : AssessmentSystem) :
  (∃ res,
     get_shareable_results
       (run_security_assessment now_id now now1 now2 now3 self).1 = Some res ∧
     length (findings (run_security_assessment now_id now now1 now2 now3 self).1) = 3 ∧
     res_findings res =
       take 2 (findings (run_security_assessment now_id now now1 now2 now3 self).1) ∧
     res_findings_count res = 2 ∧
     (run_security_assessment now_id now now1 now2 now3 self).2
       = (self ++ [(run_security_assessment now_id now now1 now2 now3 self).1])%list) ∧
  (∃ res,
     get_shareable_results
       (run_infrastructure_assessment now_id now now1 now2 self).1 = Some res ∧
     res_findings res =
       findings (run_infrastructure_assessment now_id now now1 now2 self).1 ∧
     res_findings_count res = 2 ∧
     (run_infrastructure_assessment now_id now now1 now2 self).2
       = (self ++ [(run_infrastructure_assessment now_id now now1 now2 self).1])%list).
Proof.
  assert (∀ fs, labelled fs →
            shareable_findings fs = Some (filter is_shareable fs)) as Hfilter
    by apply shareable_findings_filter.
  split.
  - unfold run_security_assessment, create_assessment.
    rewrite !update_last_snoc. cbn [fst snd].
    set (a0 := Assessment_init now_id now SECURITY _).
    destruct (add_finding_filter now1 "network_security" "info"
                "Network perimeter security validated" PUBLIC a0)
      as (f1 & Hf1 & _ & Hs1).
    set (a1 := add_finding now1 _ _ _ _ a0) in *.
    destruct (add_finding_filter now2 "encryption" "info"
                "Data encryption standards implemented" PUBLIC a1)
      as (f2 & Hf2 & _ & Hs2).
    set (a2 := add_finding now2 _ _ _ _ a1) in *.
    destruct (add_finding_filter now3 "sovereignty" "info"
                "Tribal sovereignty controls active" TRIBAL_SOVEREIGN a2)
      as (f3 & Hf3 & _ & Hs3).
    set (a3 := add_finding now3 _ _ _ _ a2) in *.
    assert (labelled (findings a3)) as Hl.
    { subst a3 a2 a1. do 3 apply add_finding_labelled. constructor. }
    unfold get_shareable_results. rewrite (Hfilter _ Hl).
    eexists. split; [reflexivity|]. cbn [res_findings res_findings_count].
    rewrite Hf3, Hs3, Hf2, Hs2, Hf1, Hs1. by cbn.
  - unfold run_infrastructure_assessment, create_assessment.
    rewrite !update_last_snoc. cbn [fst snd].
    set (a0 := Assessment_init now_id now INFRASTRUCTURE _).
    destruct (add_finding_filter now1 "capacity" "info"
                "Infrastructure capacity validated for federal continuity"
                SENSITIVE a0)
      as (f1 & Hf1 & _ & Hs1).
    set (a1 := add_finding now1 _ _ _ _ a0) in *.
    destruct (add_finding_filter now2 "scalability" "info"
                "Systems demonstrate scalability for growth" SENSITIVE a1)
      as (f2 & Hf2 & _ & Hs2).
    set (a2 := add_finding now2 _ _ _ _ a1) in *.
    assert (labelled (findings a2)) as Hl.
    { subst a2 a1. do 2 apply add_finding_labelled. constructor. }
    unfold get_shareable_results. rewrite (Hfilter _ Hl).
    eexists. split; [reflexivity|]. cbn [res_findings res_findings_count].
    rewrite Hf2, Hs2, Hf1, Hs1. by cbn.
Qed.

End assessment_views.

(** ** Packages, the transmission log and the errors of the envelope *)

Module package_facts.
Import cisa_transmission transmission_facts.

Lemma decrypt_payload `{AESGCM} (self : SecureTransmitter) (key nonce : list byte)
    (now : string) (data ciphertext : list byte) :
  encryption_key self = key →
  AESGCM_encrypt key nonce data = Return ciphertext →
  decrypt_data self
    {[ "ciphertext" := b64encode ciphertext; "nonce" := b64encode nonce;
       "algorithm" := "AES-256-GCM"; "timestamp" := now ++ "Z" ]}
  = Return data.
Proof.
  intros Hkey Hc. unfold decrypt_data.
  rewrite (getitem_Some _ "ciphertext" (b64encode ciphertext))
    by (by simplify_map_eq).
  rewrite (getitem_Some _ "nonce" (b64encode nonce)) by (by simplify_map_eq).
  repeat (rewrite bind_Return || rewrite b64decode_b64encode).
  by rewrite Hkey, (AESGCM_decrypt_encrypt _ _ _ _ Hc).
Qed.

Lemma bind_Raise {A B} (e : string) (k : A → result B) :
  (Raise e : result A) ≫= k = Raise e.
Proof. reflexivity. Qed.


(** X21.  Two transmitters that hold the same key read each other: what one
    encrypts, the other decrypts to the same data.  This is the case of two
    transmitters built with the same explicit, non-empty key; an explicit
    empty key is set aside for a generated one, as no key is. *)
Theorem same_key_round_trip `{AESGCM} (t1 t2 : SecureTransmitter)
    (nonce : list byte) (now : string) (data : list byte)
    (payload : gmap string string) :
  encryption_key t2 = encryption_key t1 →
  encrypt_data t1 nonce now data = Return payload →
  decrypt_data t2 payload = Return data.
Proof.
  intros Hkey (ciphertext & Hc & ->)%encrypt_data_Return.
  by apply (decrypt_payload t2 (encryption_key t1) nonce now data ciphertext).
Qed.

Lemma same_key_round_trip_witness :
  ∃ payload,
    @encrypt_data samples.clear_text
      (SecureTransmitter_init "https://cisa.gov/tribal-data-intake"
         (Some (encode "0123456789abcdef")) (encode "generated-key-1"))
      (encode "0123456789ab") "2024-01-01T00:00:00"
      (encode "Test assessment data") = Return payload ∧
    @decrypt_data samples.clear_text
      (SecureTransmitter_init "https://example.org/intake"
         (Some (encode "0123456789abcdef")) (encode "generated-key-2"))
      payload = Return (encode "Test assessment data").
Proof.
  eexists. split; [reflexivity|].
  apply (@same_key_round_trip samples.clear_text
           (SecureTransmitter_init "https://cisa.gov/tribal-data-intake"
              (Some (encode "0123456789abcdef")) (encode "generated-key-1"))
           _ (encode "0123456789ab") "2024-01-01T00:00:00");
    reflexivity.
Defined.

(** The key of a transmitter is the explicit key when one is given and is
    not empty; with no key, or with the empty key, it is the generated
    one. *)
Lemma transmitter_key_choice (endpoint' : string) (key generated : list byte) :
  (key ≠ [] →
   encryption_key (SecureTransmitter_init endpoint' (Some key) generated) = key) ∧
  encryption_key (SecureTransmitter_init endpoint' (Some []) generated) = generated ∧
  encryption_key (SecureTransmitter_init endpoint' None generated) = generated.
Proof. split; [|done]. by destruct key. Qed.

Section packages.
Context `{Hashlib} `{AESGCM} {A : Type} `{AssessmentData A}.

Lemma prepare_Return (self : SecureTransmitter) nonce now_enc now_id now
    (a : A) metadata (p : Package) :
  prepare_transmission_package self nonce now_enc now_id now a metadata = Return p →
  ∃ ciphertext,
    AESGCM_encrypt (encryption_key self) nonce (encode (json_dumps a))
      = Return ciphertext ∧
    encrypt_data self nonce now_enc (encode (json_dumps a))
      = Return (encrypted_payload p) ∧
    package_data_hash p = sha256_hexdigest (encode (json_dumps a)) ∧
    package_data_size_bytes p = length (encode (json_dumps a)) ∧
    transmission_id p =
      take_str 32 (sha256_hexdigest
                     (encode (now_id ++ sha256_hexdigest (encode (json_dumps a))))) ∧
    package_metadata_in p = default ∅ metadata.
Proof.
  unfold prepare_transmission_package.
  destruct (encrypt_data self nonce now_enc (encode (json_dumps a)))
    as [payload|e] eqn:Henc; [|done].
  rewrite bind_Return. intros [= <-].
  destruct (encrypt_data_Return _ _ _ _ _ Henc) as (ciphertext & Hc & _).
  by exists ciphertext.
Qed.

Lemma transmit_Return (self : SecureTransmitter) nonce now_enc now_id now
    now_sent now_received (a : A) metadata log rec log' :
  transmit_to_cisa self nonce now_enc now_id now now_sent now_received a metadata log
    = Return (rec, log') →
  ∃ p, prepare_transmission_package self nonce now_enc now_id now a metadata
         = Return p ∧
       rec = add_package_metadata p
               (simulate_transmission self now_sent now_received p log).1 ∧
       log' = (log ++ [rec])%list.
Proof.
  unfold transmit_to_cisa.
  destruct (prepare_transmission_package _ _ _ _ _ _ _) as [p|e]; [|done].
  rewrite bind_Return. cbn [simulate_transmission].
  intros [= <- <-]. exists p. split; [done|]. split; [done|].
  rewrite length_app. cbn [length].
  replace (pred (length log + 1)) with (length log) by lia.
  rewrite insert_app_r_alt by done. by rewrite Nat.sub_diag.
Qed.

(** What is done with the metadata: nothing that shows in the record or in
    the log. *)
Lemma transmit_ignores_metadata (self : SecureTransmitter) nonce now_enc now_id
    now now_sent now_received (a : A) metadata metadata' log :
  transmit_to_cisa self nonce now_enc now_id now now_sent now_received a metadata log
  = transmit_to_cisa self nonce now_enc now_id now now_sent now_received a
      metadata' log.
Proof.
  unfold transmit_to_cisa, prepare_transmission_package.
  by destruct (encrypt_data _ _ _ _).
Qed.

End packages.

(** *** The statements *)

(** X22.  A package that [prepare_transmission_package] returns can be
    checked by whoever holds the key: its payload passes
    [verify_encryption] and decrypts to the JSON bytes of the assessment
    data, whose SHA-256 digest and whose length are the [data_hash] and the
    [data_size_bytes] of the package. *)
Theorem prepared_package_is_verifiable `{Hashlib} `{AESGCM} {A : Type}
    `{AssessmentData A} (self : SecureTransmitter) (nonce : list byte)
    (now_enc now_id now : string) (a : A)
    (metadata : option (gmap string json_value)) (p : Package) :
  prepare_transmission_package self nonce now_enc now_id now a metadata = Return p →
  verify_encryption (encrypted_payload p) = true ∧
  ∃ plaintext,
    decrypt_data self (encrypted_payload p) = Return plaintext ∧
    plaintext = encode (json_dumps a) ∧
    sha256_hexdigest plaintext = package_data_hash p ∧
    length plaintext = package_data_size_bytes p.
Proof.
  intros (ciphertext & Hc & Henc & Hhash & Hsize & _)%prepare_Return.
  split; [by eapply encrypt_data_verified|].
  exists (encode (json_dumps a)).
  apply encrypt_data_Return in Henc as (ciphertext' & Hc' & ->).
  split; [by eapply decrypt_payload|]. by rewrite Hhash, Hsize.
Qed.

Lemma prepared_package_is_verifiable_witness :
  ∃ p,
    @prepare_transmission_package samples.fixed_digest samples.clear_text
      string samples.json_text samples.test_transmitter (encode "0123456789ab")
      "2024-01-01T00:00:00" "2024-01-01T00:00:01" "2024-01-01T00:00:02"
      "{}" None = Return p ∧
    verify_encryption (encrypted_payload p) = true ∧
    ∃ plaintext,
      @decrypt_data samples.clear_text samples.test_transmitter
        (encrypted_payload p) = Return plaintext ∧
      plaintext = encode "{}" ∧
      @sha256_hexdigest samples.fixed_digest plaintext = package_data_hash p ∧
      length plaintext = package_data_size_bytes p.
Proof.
  eexists. split; [reflexivity|].
  apply (@prepared_package_is_verifiable samples.fixed_digest samples.clear_text
           string samples.json_text samples.test_transmitter
           (encode "0123456789ab") "2024-01-01T00:00:00" "2024-01-01T00:00:01"
           "2024-01-01T00:00:02" "{}" None).
  reflexivity.
Defined.

(** X23.  A transmission that returns adds exactly one record at the end of
    the transmission log, and this record is the returned one, package
    metadata included; the record carries the digest and the size of the
    JSON bytes, and its receipt id is derived from its transmission id. *)
Theorem transmission_is_logged_once `{Hashlib} `{AESGCM} {A : Type}
    `{AssessmentData A} (self : SecureTransmitter) (nonce : list byte)
    (now_enc now_id now now_sent now_received : string) (a : A)
    (metadata : option (gmap string json_value))
    (log log' : list TransmissionRecord) (rec : TransmissionRecord) :
  transmit_to_cisa self nonce now_enc now_id now now_sent now_received a metadata log
    = Return (rec, log') →
  log' = (log ++ [rec])%list ∧
  record_status rec = "SIMULATED_SUCCESS" ∧
  record_data_hash rec = sha256_hexdigest (encode (json_dumps a)) ∧
  package_metadata rec =
    Some {| metadata_source := "Verdigris Botanica Tribal Nation";
            metadata_data_size_bytes := length (encode (json_dumps a));
            metadata_encryption_standard := "FIPS 140-2 Compliant AES-256-GCM" |} ∧
  cisa_receipt_id (response rec) =
    take_str 16 (sha256_hexdigest (encode (record_transmission_id rec))).
Proof.
  intros (p & Hp & -> & ->)%transmit_Return.
  pose proof Hp as Hp'. unfold prepare_transmission_package in Hp'.
  destruct (encrypt_data _ _ _ _) as [payload|e]; [|done].
  rewrite bind_Return in Hp'. injection Hp' as <-. done.
Qed.

Lemma transmission_is_logged_once_witness :
  ∃ rec log',
    @transmit_to_cisa samples.fixed_digest samples.clear_text
      string samples.json_text samples.test_transmitter (encode "0123456789ab")
      "2024-01-01T00:00:00" "2024-01-01T00:00:01" "2024-01-01T00:00:02"
      "2024-01-01T00:00:03" "2024-01-01T00:00:04" "{}" None []
      = Return (rec, log') ∧
    log' = [rec] ∧ record_status rec = "SIMULATED_SUCCESS".
Proof.
  eexists _, _. split; [reflexivity|].
  edestruct (@transmission_is_logged_once samples.fixed_digest samples.clear_text
               string samples.json_text samples.test_transmitter
               (encode "0123456789ab") "2024-01-01T00:00:00" "2024-01-01T00:00:01"
               "2024-01-01T00:00:02" "2024-01-01T00:00:03" "2024-01-01T00:00:04"
               "{}" None [])
    as (Hlog & Hstatus & _); [reflexivity|].
  split; [exact Hlog | exact Hstatus].
Defined.

(** X24.  When the cipher refuses the key, the nonce or the data, the
    preparation of the package and the transmission raise the error of
    [encrypt_data], "Encryption failed: " followed by the text of the
    cipher's error, and no record is made. *)
Theorem cipher_error_stops_the_transmission `{Hashlib} `{AESGCM} {A : Type}
    `{AssessmentData A} (self : SecureTransmitter) (nonce : list byte)
    (now_enc now_id now now_sent now_received : string) (a : A)
    (metadata : option (gmap string json_value))
    (log : list TransmissionRecord) (e : string) :
  AESGCM_encrypt (encryption_key self) nonce (encode (json_dumps a)) = Raise e →
  prepare_transmission_package self nonce now_enc now_id now a metadata
    = Raise ("Encryption failed: " ++ e) ∧
  transmit_to_cisa self nonce now_enc now_id now now_sent now_received a metadata log
    = Raise ("Encryption failed: " ++ e).
Proof.
  intros He. unfold transmit_to_cisa, prepare_transmission_package, encrypt_data.
  by rewrite He.
Qed.

Lemma cipher_error_stops_the_transmission_witness :
  @prepare_transmission_package samples.fixed_digest samples.key_checking
    string samples.json_text
    (SecureTransmitter_init "https://cisa.gov/tribal-data-intake"
       (Some (encode "short")) (encode "0123456789abcdef0123456789abcdef"))
    (encode "0123456789ab") "2024-01-01T00:00:00" "2024-01-01T00:00:01"
    "2024-01-01T00:00:02" "{}" None
    = Raise ("Encryption failed: " ++ "AESGCM key must be 128, 192, or 256 bits.") ∧
  @transmit_to_cisa samples.fixed_digest samples.key_checking
    string samples.json_text
    (SecureTransmitter_init "https://cisa.gov/tribal-data-intake"
       (Some (encode "short")) (encode "0123456789abcdef0123456789abcdef"))
    (encode "0123456789ab") "2024-01-01T00:00:00" "2024-01-01T00:00:01"
    "2024-01-01T00:00:02" "2024-01-01T00:00:03" "2024-01-01T00:00:04" "{}" None []
    = Raise ("Encryption failed: " ++ "AESGCM key must be 128, 192, or 256 bits.").
Proof.
  apply (@cipher_error_stops_the_transmission samples.fixed_digest
           samples.key_checking string samples.json_text).
  vm_compute. reflexivity.
Defined.

(** X25.  The tracking record handed to [send_assessment_to_cisa] leaves no
    trace: the returned record and the transmission log are the same
    whatever record is given, its id and its classification reaching only
    the metadata of a package that is neither returned nor logged. *)
Theorem tracking_record_leaves_no_trace `{Hashlib} `{AESGCM} {A : Type}
    `{AssessmentData A} (transmitter : SecureTransmitter) (nonce : list byte)
    (now_enc now_id now now_sent now_received : string) (a : A)
    (r r' : tribal_data_tracker.DataTransmissionRecord)
    (log : list TransmissionRecord) :
  send_assessment_to_cisa transmitter nonce now_enc now_id now now_sent
    now_received a r log
  = send_assessment_to_cisa transmitter nonce now_enc now_id now now_sent
      now_received a r' log.
Proof. unfold send_assessment_to_cisa. apply transmit_ignores_metadata. Qed.

End package_facts.

(** ** The dashboard *)

Module dashboard_facts.
Import tribal_data_tracker cisa_magnitude_viewer.

(** The record of a line has no hash. *)
Definition unhashed (t : LogLine) : Prop := data_hash (log_record t) = None.

#[local] Instance unhashed_dec t : Decision (unhashed t).
Proof. unfold unhashed. apply _. Defined.

Lemma display_transmission_raised (r : DataTransmissionRecord) :
  raised (display_transmission r) =
  if decide (data_hash r = None)
  then Some (TypeError "'NoneType' object is not subscriptable") else None.
Proof. unfold display_transmission. by destruct (data_hash r). Qed.

(** The loop ends on the first record without hash, and on no other. *)
Lemma display_transmissions_raised (ls : list LogLine) (acc : Z) :
  (display_transmissions ls acc).2 =
  if decide (Exists unhashed ls)
  then Some (TypeError "'NoneType' object is not subscriptable") else None.
Proof.
  revert acc. induction ls as [|t ls IH]; intros acc; cbn [display_transmissions].
  - rewrite decide_False; [done|]. by intros ?%Exists_nil.
  - rewrite display_transmission_raised.
    destruct (decide (data_hash (log_record t) = None)) as [Ht|Ht].
    + rewrite decide_True; [done|]. by apply Exists_cons_hd.
    + specialize (IH (acc + data_size_bytes (log_record t))%Z).
      destruct (display_transmissions ls _) as [[lines total] e].
      cbn in *. rewrite IH.
      destruct (decide (Exists unhashed ls)) as [He|He].
      * rewrite decide_True; [done|]. by apply Exists_cons_tl.
      * rewrite decide_False; [done|]. by intros [?|?]%Exists_cons.
Qed.

(** When the loop ends by itself, it has added up the sizes. *)
Lemma display_transmissions_total (ls : list LogLine) (acc : Z) :
  ¬ Exists unhashed ls →
  (display_transmissions ls acc).1.2 = (acc + total_size ls)%Z.
Proof.
  revert acc. induction ls as [|t ls IH]; intros acc Hls;
    cbn [display_transmissions total_size foldr].
  - cbn. lia.
  - rewrite display_transmission_raised.
    rewrite decide_False by (intros Ht; apply Hls; by apply Exists_cons_hd).
    specialize (IH (acc + data_size_bytes (log_record t))%Z).
    destruct (display_transmissions ls _) as [[lines total] e].
    cbn in *. rewrite IH; [unfold total_size; lia|].
    intros He. apply Hls. by apply Exists_cons_tl.
Qed.

Lemma dashboard_on_lines (fs : Files) (path : string) (t : LogLine)
    (ls : list LogLine) :
  appended fs !! path = Some (t :: ls) →
  display_magnitude_dashboard fs path =
  match (display_transmissions (t :: ls) 0).2 with
  | Some e =>
      {| printed := header ++ summary (length (t :: ls))
                      ++ (display_transmissions (t :: ls) 0).1.1;
         raised := Some e |}
  | None =>
      {| printed := header ++ summary (length (t :: ls))
                      ++ (display_transmissions (t :: ls) 0).1.1
                      ++ footer (display_transmissions (t :: ls) 0).1.2;
         raised := None |}
  end.
Proof.
  intros Hls. unfold display_magnitude_dashboard. rewrite Hls.
  by destruct (display_transmissions (t :: ls) 0) as [[lines total] [e|]].
Qed.

(** X26.  On a log file of JSON lines, the dashboard ends in the TypeError
    "'NoneType' object is not subscriptable" exactly when the record of one
    of the lines has no hash, and completes otherwise. *)
Theorem dashboard_fails_on_unhashed_record (fs : Files) (path : string)
    (ls : list LogLine) :
  appended fs !! path = Some ls →
  raised (display_magnitude_dashboard fs path) =
  if decide (Exists unhashed ls)
  then Some (TypeError "'NoneType' object is not subscriptable") else None.
Proof.
  intros Hls. destruct ls as [|t ls].
  - unfold display_magnitude_dashboard. rewrite Hls.
    rewrite decide_False; [done|]. by intros ?%Exists_nil.
  - rewrite (dashboard_on_lines _ _ _ _ Hls).
    rewrite <- (display_transmissions_raised (t :: ls) 0).
    by destruct (display_transmissions (t :: ls) 0).2.
Qed.

Lemma dashboard_fails_on_unhashed_record_witness :
  raised (display_magnitude_dashboard samples.hashed_files
            "./logs/tribal_data_transmission_log.jsonl") =
  if decide (Exists unhashed samples.hashed_log)
  then Some (TypeError "'NoneType' object is not subscriptable") else None.
Proof.
  apply dashboard_fails_on_unhashed_record. vm_compute. reflexivity.
Defined.

(** X27.  Logging a record that was never hashed, which
    [log_transmission] accepts, makes the dashboard of the main log end in
    that TypeError. *)
Theorem logging_an_unhashed_record_breaks_the_dashboard `{Hashlib}
    (w w' : World) (l : nat) (now_log now_audit : string)
    (r : DataTransmissionRecord) :
  step w (Log l now_log now_audit) = Some w' →
  heap w !! l = Some r →
  data_hash r = None →
  raised (display_magnitude_dashboard (files w') (main_log_file (tracker w')))
  = Some (TypeError "'NoneType' object is not subscriptable").
Proof.
  intros Hstep Hr Hhash.
  destruct (tracker_runs.step_tracker_files _ _ _ Hstep)
    as (_ & Hfile & _ & r0 & Hr0 & Hfiles).
  assert (r0 = r) as -> by congruence.
  rewrite Hfile, Hfiles.
  destruct (tracker_facts.log_transmission_files (tracker w) now_log now_audit r
              (files w)) as [Hlines _].
  set (line := {| log_timestamp := now_log ++ "Z"; log_record := r |}) in *.
  match type of Hlines with _ = Some ?x => set (lines := x) in * end.
  assert (Exists unhashed lines) as Hex.
  { apply Exists_app. right. by apply Exists_cons_hd. }
  destruct lines as [|t ls]; [by apply Exists_nil in Hex|].
  rewrite (dashboard_on_lines _ _ _ _ Hlines).
  pose proof (display_transmissions_raised (t :: ls) 0) as Hraised.
  rewrite decide_True in Hraised by done. by rewrite Hraised.
Qed.

Lemma logging_an_unhashed_record_breaks_the_dashboard_witness :
  ∃ w',
    @step samples.fixed_digest samples.pending_world
      (Log 0 "2024-01-01T00:00:09" "2024-01-01T00:00:10") = Some w' ∧
    raised (display_magnitude_dashboard (files w') (main_log_file (tracker w')))
    = Some (TypeError "'NoneType' object is not subscriptable").
Proof.
  eexists. split; [vm_compute; reflexivity|].
  apply (@logging_an_unhashed_record_breaks_the_dashboard samples.fixed_digest
           samples.pending_world _ 0 "2024-01-01T00:00:09" "2024-01-01T00:00:10"
           samples.pending_record);
    vm_compute; reflexivity.
Defined.

(** X28.  On a log file of at least one line, all with a hash, the dashboard
    completes; it prints the number of lines as the total of transmissions
    and, with commas between the thousands, the sum of the sizes of their
    records as the total of data transferred, and ends with the closing
    rule. *)
Theorem dashboard_totals (fs : Files) (path : string) (ls : list LogLine) :
  appended fs !! path = Some ls →
  ls ≠ [] →
  ¬ Exists unhashed ls →
  raised (display_magnitude_dashboard fs path) = None ∧
  ("Total Data Transmissions: " ++ pretty (length ls))%string
    ∈ printed (display_magnitude_dashboard fs path) ∧
  ("✓ Total data transferred: " ++ format_thousands (total_size ls) ++ " bytes")%string
    ∈ printed (display_magnitude_dashboard fs path) ∧
  last (printed (display_magnitude_dashboard fs path)) = Some (rule "=").
Proof.
  intros Hls Hne Hok. destruct ls as [|t ls]; [done|].
  rewrite (dashboard_on_lines _ _ _ _ Hls).
  pose proof (display_transmissions_raised (t :: ls) 0) as Hraised.
  rewrite decide_False in Hraised by done. rewrite Hraised.
  rewrite (display_transmissions_total _ 0 Hok), Z.add_0_l.
  cbn [printed raised]. split; [done|]. split; [|split].
  - apply elem_of_app. right. apply elem_of_app. left.
    unfold summary. do 3 apply list_elem_of_further. apply list_elem_of_here.
  - apply elem_of_app. right. apply elem_of_app. right. apply elem_of_app. right.
    unfold footer. do 8 apply list_elem_of_further. apply list_elem_of_here.
  - rewrite !app_assoc. unfold footer.
    match goal with
    | |- last (?pre ++ ?l) = _ =>
        change l with (removelast l ++ [rule "="])%list;
        rewrite app_assoc; apply last_snoc
    end.
Qed.

Lemma dashboard_totals_witness :
  raised (display_magnitude_dashboard samples.hashed_files
            "./logs/tribal_data_transmission_log.jsonl") = None ∧
  ("Total Data Transmissions: " ++ pretty (length samples.hashed_log))%string
    ∈ printed (display_magnitude_dashboard samples.hashed_files
                 "./logs/tribal_data_transmission_log.jsonl") ∧
  ("✓ Total data transferred: "
     ++ format_thousands (total_size samples.hashed_log) ++ " bytes")%string
    ∈ printed (display_magnitude_dashboard samples.hashed_files
                 "./logs/tribal_data_transmission_log.jsonl") ∧
  last (printed (display_magnitude_dashboard samples.hashed_files
                   "./logs/tribal_data_transmission_log.jsonl"))
    = Some (rule "=").
Proof.
  apply dashboard_totals.
  - vm_compute. reflexivity.
  - discriminate.
  - apply (bool_decide_unpack _). vm_compute. exact I.
Defined.

(** The format of the total, on a few numbers. *)
Example format_thousands_examples :
  format_thousands 0 = "0" ∧ format_thousands 999 = "999" ∧
  format_thousands 1000 = "1,000" ∧ format_thousands 1536 = "1,536" ∧
  format_thousands 1234567 = "1,234,567" ∧ format_thousands (-1234) = "-1,234".
Proof. by vm_compute. Qed.

End dashboard_facts.

(** ** The assertions of test_system.py, replayed on the embedding *)

Module test_system.

Section replay.
#[local] Existing Instance samples.fixed_digest.
#[local] Existing Instance samples.clear_text.

(** [test_assessment_system]: a public and a sovereign finding, one of them
    shareable. *)
Example test_assessment_system :
  let assessment :=
    assessment_system.add_finding "2024-01-01T00:00:02"
      "tribal_finding" "low" "Tribal sovereign information"
      assessment_system.TRIBAL_SOVEREIGN
      (assessment_system.add_finding "2024-01-01T00:00:01"
         "test_finding" "high" "Test finding" assessment_system.PUBLIC
         (assessment_system.Assessment_init "2024-01-01T00:00:00"
            "2024-01-01T00:00:00" assessment_system.SECURITY
            "Test Security Assessment")) in
  length (assessment_system.findings assessment) = 2 ∧
  assessment_system.res_findings_count
    <$> assessment_system.get_shareable_results assessment = Some 1.
Proof. by vm_compute. Qed.

(** [test_data_tracker]: the sensitive record is validated and ends LOGGED,
    the sovereign record is refused, the summary counts two transmissions and
    has the destination CISA. *)
Example test_data_tracker :
  ∃ w record sovereign_record,
    tribal_data_tracker.run (tribal_data_tracker.init_world "/tmp/test_logs")
      samples.tracker_test_calls = Some w ∧
    tribal_data_tracker.heap w !! 0 = Some record ∧
    tribal_data_tracker.heap w !! 1 = Some sovereign_record ∧
    tribal_data_tracker.status record = "LOGGED" ∧
    tribal_data_tracker.encryption_method record = Some "AES-256-GCM" ∧
    (tribal_data_tracker.validate_transmission "2024-01-01T00:00:07"
       sovereign_record).1 = false ∧
    tribal_data_tracker.total_transmissions
      (tribal_data_tracker.get_transmission_summary w) = 2 ∧
    is_Some (tribal_data_tracker.destination_breakdown
               (tribal_data_tracker.get_transmission_summary w) !! "CISA").
Proof.
  eexists _, _, _. split; [vm_compute; reflexivity|].
  split; [vm_compute; reflexivity|]. split; [vm_compute; reflexivity|].
  repeat split; try (vm_compute; reflexivity).
  eexists. vm_compute. reflexivity.
Qed.

(** The second example of the specification: a sensitive record without
    hash is refused; once hashed and encrypted it passes. *)
Example sensitive_record_before_and_after :
  let record :=
    tribal_data_tracker.DataTransmissionRecord_init "2024-01-01T00:00:00"
      "a1b2c3d4e5f60708" "2024-01-01T00:00:00" "assessment_results" "CISA"
      tribal_data_tracker.DataClassification.SENSITIVE 1024 in
  (tribal_data_tracker.validate_transmission "2024-01-01T00:00:01" record).1
    = false ∧
  (tribal_data_tracker.validate_transmission "2024-01-01T00:00:04"
     (tribal_data_tracker.set_encryption "2024-01-01T00:00:03" "AES-256-GCM"
        (tribal_data_tracker.set_data_hash "2024-01-01T00:00:02"
           (encode "test data") record))).1 = true.
Proof. by vm_compute. Qed.

(** [test_secure_transmitter]: the payload has its four fields and decrypts
    to the data. *)
Example test_secure_transmitter :
  ∃ encrypted,
    cisa_transmission.encrypt_data samples.test_transmitter
      (encode "0123456789ab") "2024-01-01T00:00:00"
      (encode "Test assessment data") = cisa_transmission.Return encrypted ∧
    encrypted !! "algorithm" = Some "AES-256-GCM" ∧
    cisa_transmission.verify_encryption encrypted = true ∧
    cisa_transmission.decrypt_data samples.test_transmitter encrypted
      = cisa_transmission.Return (encode "Test assessment data").
Proof.
  eexists. split; [reflexivity|].
  split; [reflexivity|]. split; [reflexivity|].
  apply (package_facts.decrypt_payload samples.test_transmitter
           (cisa_transmission.encryption_key samples.test_transmitter));
    reflexivity.
Qed.

End replay.

End test_system.
